(** * md2docx: the orchestration of [convert.py], embedded and verified

    The program converts Markdown files to Word documents by delegating to an
    external engine (pypandoc).  Everything it does itself is orchestration:
    path derivation, discovery, precondition checks and error propagation.

    The embedding follows [convert.py] function by function.  What the source
    takes from Python's standard library is modelled here for a POSIX host
    ([os.sep] is the slash, comparisons are case-sensitive) and a filesystem
    without symbolic links:

    - a [pathlib] path is its [parts] tuple, a list of components whose first
      one is ["/"] exactly when the path is absolute;
    - the filesystem is an association list from absolute paths to the kind of
      node found there; the order of the list is the order in which the host
      enumerates entries, which no result may depend on;
    - an exception is a value carrying its kind, message and [__cause__];
      a computation is a function from the world to a result and a new
      world, so that what was written before a [raise] stays written. *)

From Stdlib Require Import Ascii String.
From stdpp Require Import base option list strings sorting.

(** ** Python strings *)

Module PyStr.

Definition sep : ascii := "/"%char.

(** [str.rfind(c)]: the index of the last occurrence of [c]. *)
Fixpoint rfind (c : ascii) (s : string) : option nat :=
  match s with
  | EmptyString => None
  | String a s' =>
      match rfind c s' with
      | Some i => Some (S i)
      | None => if Ascii.eqb a c then Some 0 else None
      end
  end.

Definition lower_char (c : ascii) : ascii :=
  let n := nat_of_ascii c in
  if (65 <=? n)%nat && (n <=? 90)%nat then ascii_of_nat (n + 32) else c.

(** [str.lower()], on the ASCII letters; no other code point lowers to one
    of the characters of [".md"]. *)
Fixpoint lower (s : string) : string :=
  match s with
  | EmptyString => EmptyString
  | String a s' => String (lower_char a) (lower s')
  end.

(** [str.replace(old, new)] for single-character [old] and [new]. *)
Fixpoint replace (old new : ascii) (s : string) : string :=
  match s with
  | EmptyString => EmptyString
  | String a s' => String (if Ascii.eqb a old then new else a) (replace old new s')
  end.

Fixpoint contains (c : ascii) (s : string) : bool :=
  match s with
  | EmptyString => false
  | String a s' => Ascii.eqb a c || contains c s'
  end.

Definition startswith (s pre : string) : bool := String.prefix pre s.

(** [str.endswith(suf)]. *)
Definition endswith (s suf : string) : bool :=
  let n := String.length s in
  let k := String.length suf in
  (k <=? n)%nat && String.eqb (String.substring (n - k) k s) suf.

(** [str.split(sep)]. *)
Fixpoint split (c : ascii) (s : string) : list string :=
  match s with
  | EmptyString => [EmptyString]
  | String a s' =>
      if Ascii.eqb a c then EmptyString :: split c s'
      else match split c s' with
           | [] => [String a EmptyString]
           | w :: ws => String a w :: ws
           end
  end.

(** [sep.join(parts)]. *)
Definition join (c : ascii) (ws : list string) : string :=
  String.concat (String c EmptyString) ws.

End PyStr.

(** ** Exceptions and results *)

(** The exception classes the program names or meets, the root class, and
    any further class given by its name and the class it derives from (so
    [NotImplementedError] is [OtherError "NotImplementedError" RuntimeError]). *)
Inductive exn_kind :=
| Exception
| FileNotFoundError
| NotADirectoryError
| FileExistsError
| RuntimeError
| ValueError
| AttributeError
| ImportError
| OSError
| OtherError (name : string) (base : exn_kind).

(** An exception object: its class, its message and its [__cause__]. *)
#[warnings="-register-all"]
Inductive exn := Exn (kind : exn_kind) (msg : string) (cause : option exn).

Definition exn_kind_of (e : exn) : exn_kind := let 'Exn k _ _ := e in k.
Definition exn_msg (e : exn) : string := let 'Exn _ m _ := e in m.
Definition exn_cause (e : exn) : option exn := let 'Exn _ _ c := e in c.

Inductive result (A : Type) :=
| Ok (a : A)
| Raise (e : exn).
Arguments Ok {A} a.
Arguments Raise {A} e.

(** ** pathlib.PurePosixPath *)

Abbreviation Path := (list string).

Module PurePath.
Import PyStr.

Definition root : string := "/".

Definition is_absolute (p : Path) : bool :=
  match p with
  | r :: _ => String.eqb r root
  | [] => false
  end.

(** [Path(s)]: split at the separator, drop empty and ["."] components,
    keep a leading root. *)
Definition of_string (s : string) : Path :=
  let comps := filter (λ c, c ≠ "" ∧ c ≠ ".") (split sep s) in
  if startswith s root then root :: comps else comps.

(** [str(p)]. *)
Definition str (p : Path) : string :=
  match p with
  | [] => "."
  | r :: rest =>
      if String.eqb r root then root +:+ join sep rest else join sep p
  end.

(** What every path value satisfies: no component is empty, is ["."] or
    holds a separator, the leading root apart. *)
Definition wf_component (c : string) : bool :=
  negb (String.eqb c "") && negb (String.eqb c ".") && negb (contains sep c).

Definition wf (p : Path) : bool :=
  match p with
  | [] => true
  | r :: rest => (String.eqb r root || wf_component r) && forallb wf_component rest
  end.

(** [p.name]: the final component, empty for ["."] and for the root. *)
Definition name (p : Path) : string :=
  match p with
  | [] => ""
  | [r] => if String.eqb r root then "" else r
  | _ => List.last p ""
  end.

(** [suffix] of a file name: from the last dot on, unless that dot is the
    first or the last character. *)
Definition name_suffix (n : string) : string :=
  match rfind "."%char n with
  | Some i =>
      if (0 <? i)%nat && (i <? String.length n - 1)%nat
      then String.substring i (String.length n - i) n
      else ""
  | None => ""
  end.

Definition suffix (p : Path) : string := name_suffix (name p).

Definition name_stem (n : string) : string :=
  String.substring 0 (String.length n - String.length (name_suffix n)) n.

Definition stem (p : Path) : string := name_stem (name p).

(** [p.parent]. *)
Definition parent (p : Path) : Path :=
  match p with
  | [r] => if String.eqb r root then p else []
  | _ => removelast p
  end.

(** [p.with_suffix(s)], for the two suffixes the program passes ([""] and
    [".docx"], both valid): fails on a path without a name. *)
Definition with_suffix (p : Path) (s : string) : result Path :=
  if String.eqb (name p) "" then
    Raise (Exn ValueError ("PosixPath('" +:+ str p +:+ "') has an empty name") None)
  else Ok (removelast p ++ [name_stem (name p) +:+ s]).

(** [other] as a prefix of [p]: what remains of [p]. *)
Fixpoint strip_prefix (other p : Path) : option Path :=
  match other, p with
  | [], _ => Some p
  | a :: other', b :: p' => if String.eqb a b then strip_prefix other' p' else None
  | _ :: _, [] => None
  end.

(** [p.relative_to(other)]: purely lexical. *)
Definition relative_to (p other : Path) : result Path :=
  let bad := Raise (Exn ValueError
    ("'" +:+ str p +:+ "' is not in the subpath of '" +:+ str other +:+ "'") None) in
  match strip_prefix other p with
  | Some rest =>
      if is_absolute p && negb (is_absolute other) then bad else Ok rest
  | None => bad
  end.

(** [p / q]. *)
Definition joinpath (p q : Path) : Path :=
  if is_absolute q then q else p ++ q.

(** One step up from a resolved absolute path; the root is its own parent. *)
Definition up (acc : Path) : Path :=
  match acc with
  | [_] => acc
  | _ => removelast acc
  end.

Definition normalize (p : Path) : Path :=
  fold_left (λ acc c, if String.eqb c ".." then up acc else acc ++ [c])
            (tail p) (take 1 p).

(** [p.resolve()] in working directory [cwd]: made absolute, [".."]
    collapsed. *)
Definition resolve (cwd p : Path) : Path :=
  normalize (if is_absolute p then p else cwd ++ p).

(** The order [sorted] uses on paths: lexicographic on the components, each
    compared as a string, a proper prefix first. *)
Fixpoint leb (p q : Path) : bool :=
  match p, q with
  | [], _ => true
  | _ :: _, [] => false
  | a :: p', b :: q' =>
      match String.compare a b with
      | Lt => true
      | Eq => leb p' q'
      | Gt => false
      end
  end.

Definition le (p q : Path) : Prop := leb p q = true.

#[global] Instance le_dec : RelDecision le := λ p q, decide (leb p q = true).

End PurePath.

(** ** The filesystem *)

Inductive node := File | Dir.

#[export] Instance node_eq_dec : EqDecision node.
Proof. solve_decision. Defined.

#[export] Instance exn_kind_eq_dec : EqDecision exn_kind.
Proof. solve_decision. Defined.

Abbreviation FS := (list (Path * node)).

Module Fs.
Import PurePath.

Fixpoint lookup (fs : FS) (p : Path) : option node :=
  match fs with
  | [] => None
  | (q, k) :: fs' => if decide (q = p) then Some k else lookup fs' p
  end.

Definition is_file (fs : FS) (p : Path) : bool :=
  match lookup fs p with Some File => true | _ => false end.

Definition is_dir (fs : FS) (p : Path) : bool :=
  match lookup fs p with Some Dir => true | _ => false end.

Definition exists_ (fs : FS) (p : Path) : bool :=
  match lookup fs p with Some _ => true | None => false end.

(** Create or replace the node at [p]. *)
Definition set (p : Path) (k : node) (fs : FS) : FS :=
  (p, k) :: filter (λ e, e.1 ≠ p) fs.

Definition is_child (folder p : Path) : bool :=
  match strip_prefix folder p with Some [_] => true | _ => false end.

Definition is_under (folder p : Path) : bool :=
  match strip_prefix folder p with Some (_ :: _) => true | _ => false end.

(** [folder.iterdir()]: the direct children, in the host's order. *)
Definition iterdir (fs : FS) (folder : Path) : list Path :=
  filter (λ p, is_child folder p) (fs.*1).

(** [fnmatch(name, "*.md")] on a POSIX host: case-sensitive. *)
Definition fnmatch_md (n : string) : bool := PyStr.endswith n ".md".

(** [folder.rglob("*.md")]: every entry below [folder], of any kind, whose
    name matches the pattern. *)
Definition rglob_md (fs : FS) (folder : Path) : list Path :=
  filter (λ p, is_under folder p && fnmatch_md (name p)) (fs.*1).


Definition errno (k : exn_kind) (what : string) (p : Path) : exn :=
  Exn k (what +:+ ": '" +:+ str p +:+ "'") None.

(** [os.mkdir(d)]. *)
Definition os_mkdir (fs : FS) (d : Path) : result FS :=
  match lookup fs d with
  | Some _ => Raise (errno FileExistsError "[Errno 17] File exists" d)
  | None =>
      match lookup fs (parent d) with
      | Some Dir => Ok (set d Dir fs)
      | Some File => Raise (errno NotADirectoryError "[Errno 20] Not a directory" d)
      | None => Raise (errno FileNotFoundError "[Errno 2] No such file or directory" d)
      end
  end.

(** [Path.mkdir(parents, exist_ok)], as pathlib writes it: try [os.mkdir];
    on [FileNotFoundError] make the parent first and try once more; on any
    other [OSError] give up unless the directory is already there. *)
Fixpoint mkdir_go (fuel : nat) (parents exist_ok : bool) (fs : FS) (d : Path)
  : result FS :=
  match os_mkdir fs d with
  | Ok fs' => Ok fs'
  | Raise e =>
      if decide (exn_kind_of e = FileNotFoundError) then
        if negb parents || bool_decide (parent d = d) then Raise e
        else match fuel with
             | O => Raise e
             | S fuel' =>
                 match mkdir_go fuel' true true fs (parent d) with
                 | Ok fs' => mkdir_go fuel' false exist_ok fs' d
                 | Raise e' => Raise e'
                 end
             end
      else if negb exist_ok || negb (is_dir fs d) then Raise e
      else Ok fs
  end.

Definition mkdir (parents exist_ok : bool) (fs : FS) (d : Path) : result FS :=
  mkdir_go (S (length d)) parents exist_ok fs d.

End Fs.

(** ** The external engine and the world *)

(** The arguments of one [pypandoc.convert_file] call. *)
Record EngineCall := {
  source : string;
  to_format : string;
  outputfile : string;
  format : string;
  extra_args : list string
}.

(** The engine is a collaborator outside the repository.  It may be missing
    ([import pypandoc] fails), and a call either raises or produces the
    output file. *)
Record Engine := {
  importable : bool;
  outcome : EngineCall → FS → option exn
}.

Record World := {
  fs : FS;
  cwd : Path;
  calls : list EngineCall;
  stdout : list string;
  stderr : list string
}.

Definition with_fs (f : FS) (w : World) : World :=
  {| fs := f; cwd := cwd w; calls := calls w; stdout := stdout w; stderr := stderr w |}.

Definition with_call (c : EngineCall) (w : World) : World :=
  {| fs := fs w; cwd := cwd w; calls := calls w ++ [c];
     stdout := stdout w; stderr := stderr w |}.

Definition add_stdout (lines : list string) (w : World) : World :=
  {| fs := fs w; cwd := cwd w; calls := calls w;
     stdout := stdout w ++ lines; stderr := stderr w |}.

Definition add_stderr (lines : list string) (w : World) : World :=
  {| fs := fs w; cwd := cwd w; calls := calls w;
     stdout := stdout w; stderr := stderr w ++ lines |}.

(** A computation: runs in a world, returns or raises, leaves a world. *)
Definition M (A : Type) : Type := World → result A * World.

#[export] Instance M_ret : MRet M := λ A a w, (Ok a, w).
#[export] Instance M_bind : MBind M := λ A B f m w,
  match m w with
  | (Ok a, w') => f a w'
  | (Raise e, w') => (Raise e, w')
  end.

Definition raise {A} (e : exn) : M A := λ w, (Raise e, w).

Definition lift {A} (r : result A) : M A := λ w, (r, w).

Definition gets {A} (f : World → A) : M A := λ w, (Ok (f w), w).

(** [try: body  except kinds as e: handler(e)]. *)
Definition try_except {A} (body : M A) (handles : exn_kind → bool)
    (handler : exn → M A) : M A := λ w,
  match body w with
  | (Ok a, w') => (Ok a, w')
  | (Raise e, w') =>
      if handles (exn_kind_of e) then handler e w' else (Raise e, w')
  end.

Module Sys.
Definition resolve (p : Path) : M Path := λ w, (Ok (PurePath.resolve (cwd w) p), w).
Definition is_file (p : Path) : M bool := λ w, (Ok (Fs.is_file (fs w) p), w).
Definition is_dir (p : Path) : M bool := λ w, (Ok (Fs.is_dir (fs w) p), w).
Definition iterdir (p : Path) : M (list Path) := λ w, (Ok (Fs.iterdir (fs w) p), w).
Definition rglob_md (p : Path) : M (list Path) := λ w, (Ok (Fs.rglob_md (fs w) p), w).

Definition mkdir (parents exist_ok : bool) (d : Path) : M unit := λ w,
  match Fs.mkdir parents exist_ok (fs w) d with
  | Ok fs' => (Ok tt, with_fs fs' w)
  | Raise e => (Raise e, w)
  end.

(** [print(line)] and [print(line, file=sys.stderr)]. *)
Definition print (line : string) : M unit := λ w, (Ok tt, add_stdout [line] w).
Definition eprint (line : string) : M unit := λ w, (Ok tt, add_stderr [line] w).

(** [import pypandoc] inside [try ... except ImportError]. *)
Definition import_pypandoc (eng : Engine) : M bool := λ w, (Ok (importable eng), w).

(** [pypandoc.convert_file(...)]: the call is recorded; it raises what the
    engine raises, or writes the output file at [dst]. *)
Definition convert_file (eng : Engine) (c : EngineCall) (dst : Path) : M unit := λ w,
  match outcome eng c (fs w) with
  | Some e => (Raise e, with_call c w)
  | None => (Ok tt, with_call c (with_fs (Fs.set dst File (fs w)) w))
  end.
End Sys.

(** ** convert.py *)

Definition pypandoc_required : string :=
  "pypandoc is required. Install with: pip install pypandoc_binary".

Definition engine_call (md_path docx_path : Path) (reference_doc : option Path)
  : EngineCall :=
  {| source := PurePath.str md_path;
     to_format := "docx";
     outputfile := PurePath.str docx_path;
     format := "markdown+hard_line_breaks";
     extra_args :=
       ["--resource-path=" +:+ PurePath.str (PurePath.parent md_path)]
       ++ match reference_doc with
          | Some r => ["--reference-doc"; PurePath.str r]
          | None => []
          end |}.

(** The check of [reference_doc] (lines 49-52). *)
Definition check_reference_doc (reference_doc : option Path) : M (option Path) :=
  match reference_doc with
  | None => mret None
  | Some r =>
      r ← Sys.resolve r;
      ok ← Sys.is_file r;
      if negb ok
      then raise (Exn FileNotFoundError
                    ("Reference document not found: " +:+ PurePath.str r) None)
      else mret (Some r)
  end.

Definition convert_md_to_docx (eng : Engine) (md_path docx_path : Path)
    (reference_doc : option Path) : M unit :=
  md_path ← Sys.resolve md_path;
  docx_path ← Sys.resolve docx_path;
  ok ← Sys.is_file md_path;
  if negb ok
  then raise (Exn FileNotFoundError
                ("Markdown file not found: " +:+ PurePath.str md_path) None)
  else
    reference_doc ← check_reference_doc reference_doc;
    Sys.mkdir true true (PurePath.parent docx_path);;
    imported ← Sys.import_pypandoc eng;
    if negb imported
    then raise (Exn RuntimeError pypandoc_required None)
    else Sys.convert_file eng (engine_call md_path docx_path reference_doc) docx_path.

(** [sorted(paths)]: any sort agrees with Python's on a total order. *)
Definition sorted (paths : list Path) : list Path := merge_sort PurePath.le paths.

(** The [paths] of lines 96-99, before sorting. *)
Definition md_paths (fs : FS) (folder : Path) (recursive : bool) : list Path :=
  if recursive then Fs.rglob_md fs folder
  else filter (λ p, Fs.is_file fs p
                    && String.eqb (PyStr.lower (PurePath.suffix p)) ".md")
              (Fs.iterdir fs folder).

Definition collect_md_files (folder : Path) (recursive : bool) : M (list Path) :=
  folder ← Sys.resolve folder;
  ok ← Sys.is_dir folder;
  if negb ok
  then raise (Exn NotADirectoryError ("Not a directory: " +:+ PurePath.str folder) None)
  else
    paths ← gets (λ w, md_paths (fs w) folder recursive);
    mret (sorted paths).

(** The destination of single-file mode (lines 115-118). *)
Definition single_out_path (md_path : Path) (output : option Path) : M Path :=
  match output with
  | Some o => Sys.resolve o
  | None => lift (PurePath.with_suffix md_path ".docx")
  end.

Definition run_single_file (eng : Engine) (md_path : Path) (output : option Path)
    (reference_doc : option Path) : M Path :=
  out_path ← single_out_path md_path output;
  convert_md_to_docx eng md_path out_path reference_doc;;
  mret out_path.

(** What [rel] holds at line 153: a path, or after the [except] a string. *)
Inductive pyobj := PathObj (p : Path) | StrObj (s : string).

(** Attribute lookup of [with_suffix] on [rel], then the call. *)
Definition obj_with_suffix (o : pyobj) (s : string) : result Path :=
  match o with
  | PathObj p => PurePath.with_suffix p s
  | StrObj _ =>
      Raise (Exn AttributeError "'str' object has no attribute 'with_suffix'" None)
  end.

(** Lines 148-151. *)
Definition relative_or_name (md_path folder : Path) : result pyobj :=
  match PurePath.relative_to md_path folder with
  | Ok rel => Ok (PathObj rel)
  | Raise e =>
      if decide (exn_kind_of e = ValueError) then Ok (StrObj (PurePath.name md_path))
      else Raise e
  end.

(** The destination of one file of a batch (lines 146-156). *)
Definition batch_docx_path (folder : Path) (output_dir : option Path) (md_path : Path)
  : M Path :=
  match output_dir with
  | Some od =>
      rel ← lift (relative_or_name md_path folder);
      rel_stem ← lift (obj_with_suffix rel "");
      let stem := PyStr.replace PyStr.sep "_"%char (PurePath.str rel_stem) in
      od ← Sys.resolve od;
      mret (PurePath.joinpath od (PurePath.of_string (stem +:+ ".docx")))
  | None => lift (PurePath.with_suffix md_path ".docx")
  end.

(** One turn of the loop (lines 146-158): derive the destination, convert. *)
Definition convert_one (eng : Engine) (folder : Path) (output_dir reference_doc : option Path)
    (md_path : Path) : M Path :=
  docx_path ← batch_docx_path folder output_dir md_path;
  convert_md_to_docx eng md_path docx_path reference_doc;;
  mret docx_path.

(** The loop of lines 145-159; a destination is appended only after its
    conversion has returned. *)
Fixpoint convert_each (eng : Engine) (folder : Path) (output_dir reference_doc : option Path)
    (md_files out_paths : list Path) : M (list Path) :=
  match md_files with
  | [] => mret out_paths
  | md_path :: rest =>
      docx_path ← convert_one eng folder output_dir reference_doc md_path;
      convert_each eng folder output_dir reference_doc rest (out_paths ++ [docx_path])
  end.

Definition run_folder (eng : Engine) (folder : Path) (output_dir : option Path)
    (recursive : bool) (reference_doc : option Path) : M (list Path) :=
  md_files ← collect_md_files folder recursive;
  match md_files with
  | [] => mret []
  | _ =>
      folder ← Sys.resolve folder;
      convert_each eng folder output_dir reference_doc md_files []
  end.

(** The parsed command line.  The parser requires exactly one of [--file]
    and [--folder]. *)
Inductive Mode := FileMode (file : Path) | FolderMode (folder : Path).

Record Args := {
  mode : Mode;
  output : option Path;
  output_dir : option Path;
  recursive : bool;
  reference_doc : option Path
}.

(** [except (FileNotFoundError, NotADirectoryError, RuntimeError)]: the
    clause catches an instance of one of the three classes, that is, of the
    class itself or of a class deriving from it.  None of the three is a
    base of another class listed in [exn_kind]. *)
Fixpoint handled (k : exn_kind) : bool :=
  match k with
  | FileNotFoundError | NotADirectoryError | RuntimeError => true
  | OtherError _ base => handled base
  | _ => false
  end.

Fixpoint print_created (ps : list Path) : M unit :=
  match ps with
  | [] => mret tt
  | p :: ps' => Sys.print ("Created: " +:+ PurePath.str p);; print_created ps'
  end.

(** [main] after [parse_args]; the result is the exit status.  Inside the
    [try], [Some status] stands for an early [return status]. *)
Definition main (eng : Engine) (args : Args) : M Z :=
  early ← try_except
    (match mode args with
     | FileMode file =>
         out ← run_single_file eng file (output args) (reference_doc args);
         Sys.print ("Created: " +:+ PurePath.str out);;
         mret None
     | FolderMode folder =>
         out_list ← run_folder eng folder (output_dir args) (recursive args)
                      (reference_doc args);
         match out_list with
         | [] => Sys.eprint "No .md files found.";; mret (Some 1%Z)
         | _ => print_created out_list;; mret None
         end
     end)
    handled
    (λ e, Sys.eprint ("Error: " +:+ exn_msg e);; mret (Some 1%Z));
  match early with
  | Some status => mret status
  | None => mret 0%Z
  end.

(** ** Concrete runs of the library model *)

(** A small tree used for the worked examples below:
<<
  /docs/README.MD          /docs/sub1/note.md
  /docs/a.md               /docs/sub2/note.md
  /docs/archive.md/        /docs/ref.docx
  /empty/                  /home/u/
>> *)
Module Demo.
Definition P : string → Path := PurePath.of_string.

Definition tree : FS :=
  [ (P "/", Dir); (P "/home", Dir); (P "/home/u", Dir); (P "/empty", Dir);
    (P "/docs", Dir);
    (P "/docs/sub2", Dir); (P "/docs/sub2/note.md", File);
    (P "/docs/sub1", Dir); (P "/docs/sub1/note.md", File);
    (P "/docs/README.MD", File);
    (P "/docs/archive.md", Dir);
    (P "/docs/a.md", File);
    (P "/docs/ref.docx", File) ].

Definition world (t : FS) : World :=
  {| fs := t; cwd := P "/home/u"; calls := []; stdout := []; stderr := [] |}.

Definition w0 : World := world tree.

(** An engine that converts everything, one that is not installed, and
    one that fails on a chosen source. *)
Definition engine_ok : Engine := {| importable := true; outcome := λ _ _, None |}.
Definition engine_missing : Engine := {| importable := false; outcome := λ _ _, None |}.
Definition pandoc_died : exn :=
  Exn RuntimeError "Pandoc died with exitcode 64 during conversion" None.
Definition engine_failing_on (src : string) (e : exn) : Engine :=
  {| importable := true;
     outcome := λ c _, if String.eqb (source c) src then Some e else None |}.

(** Five inputs in one folder, for a batch that fails at the third. *)
Definition five : FS :=
  [ (P "/", Dir); (P "/home", Dir); (P "/home/u", Dir); (P "/r", Dir);
    (P "/r/5.md", File); (P "/r/3.md", File); (P "/r/1.md", File);
    (P "/r/4.md", File); (P "/r/2.md", File) ].

Definition folder_args (folder : string) : Args :=
  {| mode := FolderMode (P folder); output := None; output_dir := None;
     recursive := false; reference_doc := None |}.
End Demo.

Example of_string_abs :
  PurePath.of_string "/docs/./sub1//note.md" = ["/"; "docs"; "sub1"; "note.md"].
Proof. reflexivity. Qed.

Example str_abs : PurePath.str ["/"; "docs"; "sub1"; "note.md"] = "/docs/sub1/note.md".
Proof. reflexivity. Qed.

Example suffix_examples :
  map PurePath.name_suffix ["note.md"; ".md"; "a."; "a.b.MD"; "noext"; "..";  "a..md"]
  = [".md"; ""; ""; ".MD"; ""; ""; ".md"].
Proof. reflexivity. Qed.

Example with_suffix_example :
  PurePath.with_suffix ["docs"; "a.tar.md"] ".docx" = Ok ["docs"; "a.tar.docx"].
Proof. reflexivity. Qed.

Example resolve_example :
  PurePath.resolve ["/"; "home"; "u"] ["docs"; ".."; ".."; "x.md"] = ["/"; "home"; "x.md"].
Proof. reflexivity. Qed.

(** ** The order on paths *)

Section PathOrder.
Import PurePath.

Lemma compare_refl (s : string) : (s ?= s)%string = Eq.
Proof.
  induction s as [|a s IH]; simpl; [done|].
  unfold Ascii.compare. by rewrite N.compare_refl.
Qed.

Lemma compare_lt_le (a b : string) : (a ?= b)%string = Lt → String.le a b.
Proof. unfold String.le, String.leb. by intros ->. Qed.

Lemma compare_lt_trans (a b c : string) :
  (a ?= b)%string = Lt → (b ?= c)%string = Lt → (a ?= c)%string = Lt.
Proof.
  intros Hab Hbc.
  assert (String.le a c) as Hac.
  { trans b; by apply compare_lt_le. }
  unfold String.le, String.leb in Hac.
  destruct (a ?= c)%string eqn:E; try done.
  apply String.compare_eq_iff in E as ->.
  rewrite String.compare_antisym, Hbc in Hab. done.
Qed.

Lemma leb_refl (p : Path) : leb p p = true.
Proof. induction p as [|a p IH]; simpl; [done|]. by rewrite compare_refl. Qed.

Lemma leb_trans (p q r : Path) : leb p q = true → leb q r = true → leb p r = true.
Proof.
  revert q r. induction p as [|a p IH]; intros [|b q] [|c r]; simpl; try done.
  destruct (a ?= b)%string eqn:Hab; try done.
  - apply String.compare_eq_iff in Hab as ->.
    destruct (b ?= c)%string; try done. exact (IH q r).
  - intros _. destruct (b ?= c)%string eqn:Hbc; try done.
    + apply String.compare_eq_iff in Hbc as <-. by rewrite Hab.
    + by rewrite (compare_lt_trans a b c).
Qed.

Lemma leb_antisym (p q : Path) : leb p q = true → leb q p = true → p = q.
Proof.
  revert q. induction p as [|a p IH]; intros [|b q]; simpl; try done.
  rewrite (String.compare_antisym b a).
  destruct (a ?= b)%string eqn:Hab; simpl; try done.
  apply String.compare_eq_iff in Hab as ->.
  intros ??. f_equal. by apply IH.
Qed.

Lemma leb_total (p q : Path) : leb p q = true ∨ leb q p = true.
Proof.
  revert q. induction p as [|a p IH]; intros [|b q]; simpl; auto.
  rewrite (String.compare_antisym b a).
  destruct (a ?= b)%string; simpl; auto.
Qed.

#[global] Instance le_preorder : PreOrder le.
Proof. split; [intros p; apply leb_refl | intros p q r; apply leb_trans]. Qed.

#[global] Instance le_antisym : AntiSymm (=) le.
Proof. intros p q. apply leb_antisym. Qed.

#[global] Instance le_total : Total le.
Proof. intros p q. apply leb_total. Qed.

(** A sorted list is determined by its elements. *)
Lemma sorted_unique (l1 l2 : list Path) : l1 ≡ₚ l2 → sorted l1 = sorted l2.
Proof.
  intros E. unfold sorted.
  apply (Sorted_unique le); try apply Sorted_merge_sort; try apply _.
  by rewrite !merge_sort_Permutation.
Qed.

Lemma sorted_fixed (l : list Path) : Sorted le l → sorted l = l.
Proof.
  intros Hl. unfold sorted.
  apply (Sorted_unique le); try apply Sorted_merge_sort; try apply _; try done.
  apply merge_sort_Permutation.
Qed.

End PathOrder.

(** ** Filesystem lookups *)

Section FsFacts.
Import PurePath.

Lemma lookup_filter_ne (fs : FS) (p q : Path) :
  p ≠ q → Fs.lookup (filter (λ e, e.1 ≠ p) fs) q = Fs.lookup fs q.
Proof.
  intros Hpq. induction fs as [|[r k] fs IH]; [done|].
  rewrite filter_cons. simpl. repeat case_decide; simpl; try case_decide; congruence.
Qed.

Lemma lookup_set (p q : Path) (k : node) (fs : FS) :
  Fs.lookup (Fs.set p k fs) q = if decide (p = q) then Some k else Fs.lookup fs q.
Proof.
  unfold Fs.set. simpl. case_decide; [done|]. by apply lookup_filter_ne.
Qed.

Lemma lookup_Some_elem (fs : FS) (p : Path) (k : node) :
  Fs.lookup fs p = Some k → (p, k) ∈ fs.
Proof.
  induction fs as [|[q j] fs IH]; simpl; [done|].
  case_decide; intros; simplify_eq; [left | right; auto].
Qed.

Lemma lookup_NoDup (fs : FS) (p : Path) (k : node) :
  NoDup (fs.*1) → (p, k) ∈ fs → Fs.lookup fs p = Some k.
Proof.
  induction fs as [|[q j] fs IH]; simpl; intros Hnd Hin.
  { by apply elem_of_nil in Hin. }
  apply NoDup_cons in Hnd as [Hq Hnd].
  apply elem_of_cons in Hin as [?|Hin]; simplify_eq.
  - by rewrite decide_True.
  - rewrite decide_False; [auto|].
    intros ->. apply Hq. apply list_elem_of_fmap. by exists (p, k).
Qed.

(** One node per path: the order of enumeration does not change lookups. *)
Lemma lookup_Permutation (fs1 fs2 : FS) (p : Path) :
  NoDup (fs1.*1) → fs1 ≡ₚ fs2 → Fs.lookup fs1 p = Fs.lookup fs2 p.
Proof.
  intros Hnd E.
  assert (NoDup (fs2.*1)) as Hnd2 by (by rewrite <- E).
  destruct (Fs.lookup fs1 p) as [k|] eqn:H1.
  - symmetry. apply lookup_NoDup; [done|]. rewrite <- E. by apply lookup_Some_elem.
  - destruct (Fs.lookup fs2 p) as [k|] eqn:H2; [|done].
    apply lookup_Some_elem in H2. rewrite <- E in H2.
    apply lookup_NoDup in H2; [congruence|done].
Qed.

Lemma md_paths_Permutation (fs1 fs2 : FS) (folder : Path) (recursive : bool) :
  NoDup (fs1.*1) → fs1 ≡ₚ fs2 →
  md_paths fs1 folder recursive ≡ₚ md_paths fs2 folder recursive.
Proof.
  intros Hnd E. unfold md_paths, Fs.rglob_md, Fs.iterdir.
  destruct recursive; [by rewrite E|].
  rewrite E. erewrite list_filter_iff; [done|]. intros p.
  unfold Fs.is_file. by rewrite (lookup_Permutation fs1 fs2 p).
Qed.

End FsFacts.

(** ** Running computations *)

Ltac run :=
  unfold mbind, M_bind, mret, M_ret, raise, lift, gets, try_except,
    Sys.resolve, Sys.is_file, Sys.is_dir, Sys.iterdir, Sys.rglob_md,
    Sys.import_pypandoc; simpl.

Lemma collect_md_files_run (folder : Path) (recursive : bool) (w : World) :
  collect_md_files folder recursive w =
  let root := PurePath.resolve (cwd w) folder in
  if Fs.is_dir (fs w) root
  then (Ok (sorted (md_paths (fs w) root recursive)), w)
  else (Raise (Exn NotADirectoryError ("Not a directory: " +:+ PurePath.str root) None), w).
Proof. unfold collect_md_files. run. by destruct (Fs.is_dir _ _). Qed.

(** ** Discovery *)

(** C7: the list discovery returns is sorted by the lexicographic order on
    path components, holds exactly the paths enumerated, and is the same
    list whatever order the host enumerates the filesystem in. *)
Theorem collect_md_files_sorted_deterministic
    (w w' : World) (folder : Path) (recursive : bool) :
  NoDup ((fs w).*1) → fs w' ≡ₚ fs w → cwd w' = cwd w →
  (∀ files, (collect_md_files folder recursive w).1 = Ok files →
     Sorted PurePath.le files ∧
     files ≡ₚ md_paths (fs w) (PurePath.resolve (cwd w) folder) recursive ∧
     ∀ l, l ≡ₚ files → sorted l = files) ∧
  (collect_md_files folder recursive w').1 = (collect_md_files folder recursive w).1.
Proof.
  intros Hnd E Hcwd. split.
  - intros files. rewrite collect_md_files_run. simpl.
    destruct (Fs.is_dir _ _); simpl; [|done]. intros [= <-].
    split; [apply Sorted_merge_sort; apply _|].
    split; [apply merge_sort_Permutation|].
    intros l Hl. rewrite (sorted_unique _ _ Hl).
    apply sorted_fixed, Sorted_merge_sort; apply _.
  - rewrite !collect_md_files_run. simpl. rewrite Hcwd.
    unfold Fs.is_dir. rewrite (lookup_Permutation (fs w) (fs w')); [|done|done].
    destruct (Fs.lookup (fs w') _) as [[]|]; simpl; try done.
    f_equal. apply sorted_unique. symmetry. by apply md_paths_Permutation.
Qed.

(** What discovery returns, branch by branch: without recursion the regular
    files directly in the root whose suffix lowers to [".md"]; with
    recursion every entry below the root whose name ends in [".md"]. *)
Lemma collect_md_files_elem_of (w : World) (folder : Path) (recursive : bool)
    (files : list Path) (p : Path) :
  (collect_md_files folder recursive w).1 = Ok files →
  let root := PurePath.resolve (cwd w) folder in
  p ∈ files ↔
    p ∈ (fs w).*1 ∧
    if recursive
    then Fs.is_under root p = true ∧ PyStr.endswith (PurePath.name p) ".md" = true
    else Fs.is_child root p = true ∧ Fs.is_file (fs w) p = true ∧
         PyStr.lower (PurePath.suffix p) = ".md".
Proof.
  rewrite collect_md_files_run. simpl.
  destruct (Fs.is_dir _ _); simpl; [|done]. intros [= <-].
  unfold sorted. rewrite merge_sort_Permutation.
  unfold md_paths, Fs.rglob_md, Fs.iterdir, Fs.fnmatch_md.
  destruct recursive; rewrite ?list_elem_of_filter.
  - rewrite andb_True, !Is_true_true. tauto.
  - rewrite andb_True, !Is_true_true, String.eqb_eq. tauto.
Qed.

(** C3: on the demo tree, recursive discovery returns the directory
    [/docs/archive.md] and leaves out the regular file [/docs/README.MD],
    which the non-recursive branch does find. *)
Theorem recursive_discovery_on_demo_tree :
  (collect_md_files (Demo.P "/docs") true Demo.w0).1
    = Ok [Demo.P "/docs/a.md"; Demo.P "/docs/archive.md";
          Demo.P "/docs/sub1/note.md"; Demo.P "/docs/sub2/note.md"] ∧
  Fs.is_file Demo.tree (Demo.P "/docs/archive.md") = false ∧
  Fs.is_file Demo.tree (Demo.P "/docs/README.MD") = true ∧
  PyStr.lower (PurePath.suffix (Demo.P "/docs/README.MD")) = ".md" ∧
  (collect_md_files (Demo.P "/docs") false Demo.w0).1
    = Ok [Demo.P "/docs/README.MD"; Demo.P "/docs/a.md"].
Proof. repeat split; vm_compute; reflexivity. Qed.

(** ** Deriving the destination in a batch *)

(** The [except] branch taken alone: there [rel] is a string, not a path,
    and the derivation raises [AttributeError].  No discovered file takes
    this branch: each lies below the resolved root. *)
Theorem batch_docx_path_outside_root :
  (batch_docx_path (Demo.P "/docs") (Some (Demo.P "/out")) (Demo.P "/elsewhere/note.md")
     Demo.w0).1
  = Raise (Exn AttributeError "'str' object has no attribute 'with_suffix'" None).
Proof. vm_compute. reflexivity. Qed.

(** The two notes of the demo tree get distinct flat names. *)
Example batch_docx_path_sub1_sub2 :
  (batch_docx_path (Demo.P "/docs") (Some (Demo.P "/out")) (Demo.P "/docs/sub1/note.md")
     Demo.w0).1 = Ok (Demo.P "/out/sub1_note.docx") ∧
  (batch_docx_path (Demo.P "/docs") (Some (Demo.P "/out")) (Demo.P "/docs/sub2/note.md")
     Demo.w0).1 = Ok (Demo.P "/out/sub2_note.docx").
Proof. split; vm_compute; reflexivity. Qed.

(** ** The command line *)

Lemma add_stdout_app (l1 l2 : list string) (w : World) :
  add_stdout l2 (add_stdout l1 w) = add_stdout (l1 ++ l2) w.
Proof. unfold add_stdout. simpl. by rewrite app_assoc. Qed.

Lemma print_created_run (ps : list Path) (w : World) :
  print_created ps w
  = (Ok tt, add_stdout (map (λ p, "Created: " +:+ PurePath.str p) ps) w).
Proof.
  revert w. induction ps as [|p ps IH]; intros w; simpl.
  - unfold mret, M_ret, add_stdout. destruct w. simpl. by rewrite app_nil_r.
  - unfold mbind, M_bind, Sys.print. by rewrite IH, add_stdout_app.
Qed.

Lemma run_folder_nothing_found (eng : Engine) (folder : Path) (od : option Path)
    (rec : bool) (ref : option Path) (w : World) :
  (collect_md_files folder rec w).1 = Ok [] →
  run_folder eng folder od rec ref w = (Ok [], w).
Proof.
  unfold run_folder, mbind, M_bind. rewrite collect_md_files_run. simpl.
  destruct (Fs.is_dir _ _); simpl; [|done]. by intros [= ->].
Qed.

(** C8: when the root is a directory and discovery matches nothing,
    discovery and the batch both return the empty list and raise nothing,
    and [main] prints one plain line on the error stream and exits with 1;
    a batch that returns a non-empty list makes [main] print every
    destination and exit with 0. *)
Theorem empty_discovery_exit_status (eng : Engine) (args : Args) (folder : Path) (w : World) :
  mode args = FolderMode folder →
  (Fs.is_dir (fs w) (PurePath.resolve (cwd w) folder) = true →
   md_paths (fs w) (PurePath.resolve (cwd w) folder) (recursive args) = [] →
   collect_md_files folder (recursive args) w = (Ok [], w) ∧
   run_folder eng folder (output_dir args) (recursive args) (reference_doc args) w
     = (Ok [], w) ∧
   main eng args w = (Ok 1%Z, add_stderr ["No .md files found."] w)) ∧
  (∀ out_list w',
     run_folder eng folder (output_dir args) (recursive args) (reference_doc args) w
       = (Ok out_list, w') →
     out_list ≠ [] →
     main eng args w
       = (Ok 0%Z, add_stdout (map (λ p, "Created: " +:+ PurePath.str p) out_list) w')).
Proof.
  intros Hmode. split.
  - intros Hdir Hnone.
    assert (collect_md_files folder (recursive args) w = (Ok [], w)) as Hc.
    { rewrite collect_md_files_run. simpl. by rewrite Hdir, Hnone. }
    assert (run_folder eng folder (output_dir args) (recursive args)
              (reference_doc args) w = (Ok [], w)) as Hr.
    { apply run_folder_nothing_found. by rewrite Hc. }
    split; [done|]. split; [done|].
    unfold main, try_except, mbind, M_bind. rewrite Hmode, Hr. reflexivity.
  - intros out_list w' Hr Hne.
    unfold main, try_except, mbind, M_bind. rewrite Hmode, Hr.
    destruct out_list as [|p ps]; [done|].
    rewrite print_created_run. reflexivity.
Qed.

(** ** Facts about strings and paths *)

Section PathFacts.
Import PurePath.

Lemma substring_all (s : string) : String.substring 0 (String.length s) s = s.
Proof. induction s as [|a s IH]; simpl; [done|]. by rewrite IH. Qed.

Lemma substring_split (s : string) (i : nat) :
  i ≤ String.length s →
  String.substring 0 i s +:+ String.substring i (String.length s - i) s = s.
Proof.
  revert i. induction s as [|a s IH]; intros [|i] Hi; simpl in *; try lia; try done.
  - by rewrite substring_all.
  - unfold String.app. simpl. f_equal. apply IH. by apply le_S_n.
Qed.

Lemma length_substring (s : string) (i m : nat) :
  i + m ≤ String.length s → String.length (String.substring i m s) = m.
Proof.
  revert i m. induction s as [|a s IH]; intros [|i] [|m] Hi; simpl in *; try lia; try done.
  - f_equal. apply (IH 0). lia.
  - apply (IH i 0). lia.
  - apply (IH i (S m)). lia.
Qed.

Lemma rfind_lt (c : ascii) (s : string) (i : nat) :
  PyStr.rfind c s = Some i → i < String.length s.
Proof.
  revert i. induction s as [|a s IH]; intros i; simpl; [done|].
  destruct (PyStr.rfind c s) as [j|] eqn:E.
  - intros [= <-]. specialize (IH j eq_refl). lia.
  - destruct (Ascii.eqb a c); intros [= <-]. lia.
Qed.

Lemma string_app_nil_r (s : string) : s +:+ "" = s.
Proof. unfold String.app. induction s as [|a s IH]; simpl; [done|]. by f_equal. Qed.

(** A name is its stem followed by its suffix. *)
Lemma name_stem_suffix (n : string) : name_stem n +:+ name_suffix n = n.
Proof.
  unfold name_stem, name_suffix.
  destruct (PyStr.rfind "." n) as [i|] eqn:E.
  - apply rfind_lt in E.
    destruct (_ && _); simpl.
    + rewrite length_substring by lia.
      replace (String.length n - (String.length n - i)) with i by lia.
      apply substring_split. lia.
    + by rewrite Nat.sub_0_r, substring_all, string_app_nil_r.
  - simpl. by rewrite Nat.sub_0_r, substring_all, string_app_nil_r.
Qed.

Lemma name_snoc (l : Path) (x : string) : x ≠ root → name (l ++ [x]) = x.
Proof.
  intros Hx. destruct l as [|a l]; simpl.
  - by rewrite (proj2 (String.eqb_neq x root)).
  - destruct (l ++ [x]) as [|b k] eqn:E; [by destruct l|].
    transitivity (List.last ((a :: l) ++ [x]) ""); [|apply last_last].
    simpl. by rewrite E.
Qed.

Lemma named_path_split (p : Path) : name p ≠ "" → p = removelast p ++ [name p].
Proof.
  intros Hn. destruct p as [|a [|b l]]; simpl in *; [done| |].
  - by destruct (String.eqb a root).
  - change (a :: b :: l = removelast (a :: b :: l) ++ [List.last (a :: b :: l) ""]).
    by apply app_removelast_last.
Qed.

Lemma named_path_parent (p : Path) : name p ≠ "" → parent p = removelast p.
Proof.
  destruct p as [|a [|b l]]; simpl; try done.
  by destruct (String.eqb a root).
Qed.

Lemma with_suffix_named (p : Path) (s : string) :
  name p ≠ "" → with_suffix p s = Ok (parent p ++ [stem p +:+ s]).
Proof.
  intros Hn. unfold with_suffix.
  rewrite (proj2 (String.eqb_neq _ _) Hn). by rewrite named_path_parent.
Qed.

Lemma with_suffix_unnamed (p : Path) (s : string) :
  name p = "" → ∃ e, with_suffix p s = Raise e ∧ exn_kind_of e = ValueError.
Proof. intros Hn. unfold with_suffix. rewrite Hn. simpl. eauto. Qed.

Lemma string_app_cons (a : ascii) (s t : string) :
  String a s +:+ t = String a (s +:+ t).
Proof. reflexivity. Qed.

Lemma string_length_app (s t : string) :
  String.length (s +:+ t) = String.length s + String.length t.
Proof.
  induction s as [|a s IH]; [done|]. rewrite string_app_cons. simpl. by rewrite IH.
Qed.

Lemma docx_not_root (s : string) : s +:+ ".docx" ≠ root.
Proof.
  intros H. apply (f_equal String.length) in H.
  rewrite string_length_app in H. simpl in H. lia.
Qed.

End PathFacts.

(** ** One conversion, step by step *)

(** Lines 54-78, once both existence checks have passed. *)
Definition convert_checked (eng : Engine) (md_path docx_path : Path)
    (reference_doc : option Path) (w : World) : result unit * World :=
  match Fs.mkdir true true (fs w) (PurePath.parent docx_path) with
  | Raise e => (Raise e, w)
  | Ok fs' =>
      let c := engine_call md_path docx_path reference_doc in
      if importable eng then
        match outcome eng c fs' with
        | Some e => (Raise e, with_call c (with_fs fs' w))
        | None => (Ok tt, with_call c (with_fs (Fs.set docx_path File fs') w))
        end
      else (Raise (Exn RuntimeError pypandoc_required None), with_fs fs' w)
  end.

Definition missing (what : string) (p : Path) : exn :=
  Exn FileNotFoundError (what +:+ " not found: " +:+ PurePath.str p) None.

Lemma convert_md_to_docx_run (eng : Engine) (md_path docx_path : Path)
    (reference_doc : option Path) (w : World) :
  convert_md_to_docx eng md_path docx_path reference_doc w =
  let md := PurePath.resolve (cwd w) md_path in
  let docx := PurePath.resolve (cwd w) docx_path in
  if Fs.is_file (fs w) md then
    match reference_doc with
    | Some r =>
        let r := PurePath.resolve (cwd w) r in
        if Fs.is_file (fs w) r then convert_checked eng md docx (Some r) w
        else (Raise (missing "Reference document" r), w)
    | None => convert_checked eng md docx None w
    end
  else (Raise (missing "Markdown file" md), w).
Proof.
  unfold convert_md_to_docx, check_reference_doc, convert_checked. run.
  destruct (Fs.is_file (fs w) _); simpl; [|done].
  destruct reference_doc as [r|]; run.
  - destruct (Fs.is_file (fs w) _); simpl; [|done].
    unfold Sys.mkdir, Sys.convert_file.
    destruct (Fs.mkdir _ _ _ _); simpl; [|done].
    destruct (importable eng); simpl; [|done].
    by destruct (outcome eng _ _).
  - unfold Sys.mkdir, Sys.convert_file.
    destruct (Fs.mkdir _ _ _ _); simpl; [|done].
    destruct (importable eng); simpl; [|done].
    by destruct (outcome eng _ _).
Qed.

(** ** Single-file mode *)

Lemma single_out_path_world (md_path : Path) (output : option Path) (w : World) :
  (single_out_path md_path output w).2 = w.
Proof. by destruct output. Qed.

(** C9: with an explicit output the destination is that path, resolved;
    without one it is the input with its suffix replaced by [".docx"], in the
    input's own directory.  The filesystem plays no part in the derivation,
    and the path [run_single_file] returns is the derived one. *)
Theorem single_file_destination (eng : Engine) (md_path : Path)
    (output ref : option Path) (w : World) :
  (∀ o, output = Some o →
     single_out_path md_path output w = (Ok (PurePath.resolve (cwd w) o), w)) ∧
  (output = None → PurePath.name md_path ≠ "" →
     let dest := PurePath.parent md_path ++ [PurePath.stem md_path +:+ ".docx"] in
     single_out_path md_path output w = (Ok dest, w) ∧
     md_path = PurePath.parent md_path
                 ++ [PurePath.stem md_path +:+ PurePath.suffix md_path] ∧
     PurePath.parent dest = PurePath.parent md_path ∧
     PurePath.name dest = PurePath.stem md_path +:+ ".docx") ∧
  (∀ t, single_out_path md_path output (with_fs t w)
        = ((single_out_path md_path output w).1, with_fs t w)) ∧
  (∀ out w', run_single_file eng md_path output ref w = (Ok out, w') →
     single_out_path md_path output w = (Ok out, w)).
Proof.
  repeat split.
  - by intros o ->.
  - subst output. simpl. unfold lift. by rewrite with_suffix_named.
  - unfold PurePath.stem, PurePath.suffix. rewrite name_stem_suffix.
    rewrite named_path_parent by done. by apply named_path_split.
  - rewrite !named_path_parent.
    + by rewrite removelast_last.
    + done.
    + rewrite name_snoc; auto using docx_not_root.
      intros E. apply (f_equal String.length) in E.
      rewrite string_length_app in E. simpl in E. lia.
  - apply name_snoc, docx_not_root.
  - by destruct output.
  - intros out w'. unfold run_single_file, mbind, M_bind.
    pose proof (single_out_path_world md_path output w) as Hw.
    destruct (single_out_path md_path output w) as [[d|e] w1]; simpl in Hw; subst w1;
      [|done].
    destruct (convert_md_to_docx eng md_path d ref w) as [[[]|e] w1]; [|done].
    unfold mret, M_ret. by intros [= <- <-].
Qed.

(** ** Creating directories *)

Section Mkdir.
Import PurePath.


Lemma parent_prefix (d : Path) : parent d `prefix_of` d.
Proof.
  destruct d as [|a [|b l]]; simpl.
  - done.
  - destruct (String.eqb a root); [done|apply prefix_nil].
  - exists [List.last (a :: b :: l) ""].
    change (a :: b :: l = removelast (a :: b :: l) ++ [List.last (a :: b :: l) ""]).
    by apply app_removelast_last.
Qed.





Lemma os_mkdir_Ok (fs fs' : FS) (d : Path) :
  Fs.os_mkdir fs d = Ok fs' →
  Fs.lookup fs d = None ∧ Fs.is_dir fs (parent d) = true ∧ fs' = Fs.set d Dir fs.
Proof.
  unfold Fs.os_mkdir, Fs.is_dir.
  destruct (Fs.lookup fs d); [done|].
  destruct (Fs.lookup fs (parent d)) as [[]|]; try done.
  by intros [= <-].
Qed.


(** What a successful [mkdir] leaves: the directory is there, nothing that
    existed has changed, and whatever is new is a directory on the way to
    it. *)
Lemma mkdir_go_Ok (fuel : nat) (parents exist_ok : bool) (fs fs' : FS) (d : Path) :
  Fs.mkdir_go fuel parents exist_ok fs d = Ok fs' →
  Fs.is_dir fs' d = true ∧
  ∀ p, Fs.lookup fs' p = Fs.lookup fs p ∨
       (Fs.lookup fs p = None ∧ Fs.lookup fs' p = Some Dir ∧ p `prefix_of` d).
Proof.
  revert parents exist_ok fs fs' d.
  induction fuel as [|fuel IH]; intros parents exist_ok fs fs' d; simpl;
    destruct (Fs.os_mkdir fs d) as [fs1|e] eqn:Hos.
  1,3: intros [= <-]; apply os_mkdir_Ok in Hos as (Hd & _ & ->);
       (split; [unfold Fs.is_dir; by rewrite lookup_set, decide_True|]);
       intros p; rewrite lookup_set; case_decide; subst; auto.
  - case_decide; [by destruct (_ || _)|].
    destruct (_ || _) eqn:E; [done|]. intros [= <-].
    apply orb_false_iff in E as [_ ?%negb_false_iff]. auto.
  - case_decide.
    + destruct (_ || _); [done|].
      destruct (Fs.mkdir_go fuel true true fs (parent d)) as [fs1|] eqn:H1; [|done].
      intros H2. apply IH in H1 as [_ H1]. apply IH in H2 as [Hd H2].
      split; [done|]. intros p.
      destruct (H1 p) as [E1|(? & ? & ?)], (H2 p) as [E2|(? & ? & ?)].
      * left. congruence.
      * right. split_and!; congruence.
      * right. split_and!; [done|congruence|]. etrans; [done|apply parent_prefix].
      * congruence.
    + destruct (_ || _) eqn:E; [done|]. intros [= <-].
      apply orb_false_iff in E as [_ ?%negb_false_iff]. auto.
Qed.


End Mkdir.


Lemma mkdir_keeps_files (fs fs' : FS) (d a : Path) :
  (∀ p, Fs.lookup fs' p = Fs.lookup fs p ∨
        (Fs.lookup fs p = None ∧ Fs.lookup fs' p = Some Dir ∧ p `prefix_of` d)) →
  Fs.is_file fs a = true → Fs.is_file fs' a = true.
Proof.
  intros H. unfold Fs.is_file. destruct (H a) as [->|(-> & _)]; done.
Qed.


(** ** Resolved paths *)

Lemma up_absolute (acc : Path) :
  PurePath.is_absolute acc = true → PurePath.is_absolute (PurePath.up acc) = true.
Proof. by destruct acc as [|a [|b l]]. Qed.

Lemma snoc_absolute (acc : Path) (c : string) :
  PurePath.is_absolute acc = true → PurePath.is_absolute (acc ++ [c]) = true.
Proof. by destruct acc. Qed.

Lemma normalize_absolute (q : Path) :
  PurePath.is_absolute q = true → PurePath.is_absolute (PurePath.normalize q) = true.
Proof.
  unfold PurePath.normalize. intros Hq.
  assert (PurePath.is_absolute (take 1 q) = true) as Hacc by (by destruct q).
  revert Hacc. generalize (take 1 q). induction (tail q) as [|c l IH]; intros acc Hacc;
    simpl; [done|].
  apply IH. destruct (String.eqb c ".."); auto using up_absolute, snoc_absolute.
Qed.

Lemma resolve_absolute (cwd p : Path) :
  PurePath.is_absolute cwd = true → PurePath.is_absolute (PurePath.resolve cwd p) = true.
Proof.
  intros Hcwd. apply normalize_absolute.
  destruct (PurePath.is_absolute p) eqn:Hp; [done|]. by destruct cwd.
Qed.

(** ** What one conversion does to the world *)

Definition files_kept (w w' : World) : Prop :=
  ∀ p, Fs.is_file (fs w) p = true → Fs.is_file (fs w') p = true.

Lemma files_kept_refl (w : World) : files_kept w w.
Proof. by intros p. Qed.

Lemma files_kept_trans (w1 w2 w3 : World) :
  files_kept w1 w2 → files_kept w2 w3 → files_kept w1 w3.
Proof. intros H1 H2 p Hp. auto. Qed.

Lemma set_file_kept (fs : FS) (d p : Path) :
  Fs.is_file fs p = true → Fs.is_file (Fs.set d File fs) p = true.
Proof. unfold Fs.is_file. rewrite lookup_set. by case_decide. Qed.

Lemma convert_checked_effect (eng : Engine) (md docx : Path) (ref : option Path)
    (w w' : World) (r : result unit) :
  convert_checked eng md docx ref w = (r, w') →
  cwd w' = cwd w ∧ files_kept w w' ∧
  match r with
  | Ok _ => calls w' = calls w ++ [engine_call md docx ref] ∧
            Fs.is_file (fs w') docx = true
  | Raise _ => calls w' = calls w ∨ calls w' = calls w ++ [engine_call md docx ref]
  end.
Proof.
  unfold convert_checked.
  destruct (Fs.mkdir _ _ _ _) as [fs1|e] eqn:Hmk.
  - apply mkdir_go_Ok in Hmk as [_ Hgrow].
    assert (∀ p, Fs.is_file (fs w) p = true → Fs.is_file fs1 p = true) as Hkeep.
    { intros p. by apply (mkdir_keeps_files _ _ _ _ Hgrow). }
    destruct (importable eng).
    + destruct (outcome eng _ fs1); intros [= <- <-]; simpl.
      * split_and!; auto.
      * split_and!; auto.
        -- intros p Hp. simpl. by apply set_file_kept, Hkeep.
        -- unfold Fs.is_file. by rewrite lookup_set, decide_True.
    + intros [= <- <-]. simpl. split_and!; auto.
  - intros [= <- <-]. split_and!; auto using files_kept_refl.
Qed.

Lemma convert_md_to_docx_effect (eng : Engine) (md_path docx_path : Path)
    (ref : option Path) (w w' : World) (r : result unit) :
  convert_md_to_docx eng md_path docx_path ref w = (r, w') →
  let md := PurePath.resolve (cwd w) md_path in
  let docx := PurePath.resolve (cwd w) docx_path in
  let c := engine_call md docx (PurePath.resolve (cwd w) <$> ref) in
  cwd w' = cwd w ∧ files_kept w w' ∧
  match r with
  | Ok _ => calls w' = calls w ++ [c] ∧ Fs.is_file (fs w') docx = true
  | Raise _ => calls w' = calls w ∨ calls w' = calls w ++ [c]
  end.
Proof.
  rewrite convert_md_to_docx_run. simpl.
  destruct (Fs.is_file (fs w) _).
  - destruct ref as [x|]; simpl.
    + destruct (Fs.is_file (fs w) _); [apply convert_checked_effect|].
      intros [= <- <-]. split_and!; auto using files_kept_refl.
    + apply convert_checked_effect.
  - intros [= <- <-]. split_and!; auto using files_kept_refl.
Qed.

(** ** The engine is missing or fails *)



(** In [raised], [cause] is wrapped as a conversion failure. *)
Definition wraps_as_conversion_failure (raised cause : exn) : Prop :=
  exn_kind_of raised = RuntimeError ∧ exn_cause raised = Some cause.

Definition pandoc_not_found : exn :=
  Exn OSError "No pandoc was found: either install pandoc and add it to your PATH" None.

(** C4, as stated, fails: the error raised for a missing engine carries no
    cause at all, and an [OSError] from the engine comes out as that very
    [OSError]. *)
Lemma engine_failure_is_not_wrapped :
  (∃ raised,
     (convert_md_to_docx Demo.engine_missing (Demo.P "/docs/a.md")
        (Demo.P "/out/a.docx") None Demo.w0).1 = Raise raised ∧
     ∀ cause, ¬ wraps_as_conversion_failure raised cause) ∧
  (∃ raised,
     (convert_md_to_docx (Demo.engine_failing_on "/docs/a.md" pandoc_not_found)
        (Demo.P "/docs/a.md") (Demo.P "/out/a.docx") None Demo.w0).1 = Raise raised ∧
     raised = pandoc_not_found ∧
     ∀ cause, ¬ wraps_as_conversion_failure raised cause).
Proof.
  split; eexists; (split; [vm_compute; reflexivity|]).
  - intros cause [_ H]. discriminate H.
  - split; [reflexivity|]. intros cause [H _]. discriminate H.
Qed.

(** C4, amended: once the checks have passed and the destination's directory
    is made, a missing engine gives the fixed [RuntimeError] with no cause
    attached and no call made; a failure of the engine comes out unchanged,
    after exactly one call. *)
Theorem engine_failure_surfaces_once (eng : Engine) (md_path docx_path : Path)
    (ref : option Path) (w : World) (fs' : FS) :
  let md := PurePath.resolve (cwd w) md_path in
  let docx := PurePath.resolve (cwd w) docx_path in
  let c := engine_call md docx (PurePath.resolve (cwd w) <$> ref) in
  Fs.is_file (fs w) md = true →
  (∀ r, ref = Some r → Fs.is_file (fs w) (PurePath.resolve (cwd w) r) = true) →
  Fs.mkdir true true (fs w) (PurePath.parent docx) = Ok fs' →
  (importable eng = false →
     convert_md_to_docx eng md_path docx_path ref w
       = (Raise (Exn RuntimeError pypandoc_required None), with_fs fs' w)) ∧
  (importable eng = true → ∀ e, outcome eng c fs' = Some e →
     convert_md_to_docx eng md_path docx_path ref w
       = (Raise e, with_call c (with_fs fs' w))) ∧
  (importable eng = true → outcome eng c fs' = None →
     convert_md_to_docx eng md_path docx_path ref w
       = (Ok tt, with_call c (with_fs (Fs.set docx File fs') w))).
Proof.
  intros md docx c Hmd Href Hmk.
  assert (convert_md_to_docx eng md_path docx_path ref w
          = convert_checked eng md docx (PurePath.resolve (cwd w) <$> ref) w) as ->.
  { rewrite convert_md_to_docx_run. simpl. fold md docx. rewrite Hmd.
    destruct ref as [r|]; simpl; [|done]. by rewrite (Href r eq_refl). }
  unfold convert_checked. rewrite Hmk. fold c.
  split_and!.
  - by intros ->.
  - by intros -> e ->.
  - by intros -> ->.
Qed.

(** ** Well-formed paths *)

Lemma split_no_sep (s : string) :
  Forall (λ c, PyStr.contains PyStr.sep c = false) (PyStr.split PyStr.sep s).
Proof.
  induction s as [|a s IH]; simpl; [by constructor|].
  destruct (Ascii.eqb a PyStr.sep) eqn:Ha; [by constructor|].
  destruct (PyStr.split PyStr.sep s) as [|c cs]; [constructor; [|done]|].
  - simpl. by rewrite Ha.
  - apply Forall_cons in IH as [Hc Hcs]. constructor; [|done]. simpl. by rewrite Ha, Hc.
Qed.

(** Every path built from a string is well formed. *)
Lemma of_string_wf (s : string) : PurePath.wf (PurePath.of_string s) = true.
Proof.
  unfold PurePath.of_string.
  assert (forallb PurePath.wf_component
            (filter (λ c, c ≠ "" ∧ c ≠ ".") (PyStr.split PyStr.sep s)) = true) as H.
  { apply forallb_forall. intros c Hc. apply list_elem_of_In in Hc.
    apply list_elem_of_filter in Hc as [[H1 H2] Hc].
    pose proof (split_no_sep s) as Hs. rewrite Forall_forall in Hs.
    unfold PurePath.wf_component. rewrite (Hs c Hc).
    by rewrite (proj2 (String.eqb_neq _ _) H1), (proj2 (String.eqb_neq _ _) H2). }
  destruct (PyStr.startswith s PurePath.root); simpl; [done|].
  destruct (filter _ _) as [|r rest]; [done|].
  simpl in *. apply andb_true_iff in H as [-> ->]. by rewrite orb_true_r.
Qed.

Lemma wf_unnamed (p : Path) :
  PurePath.wf p = true → PurePath.name p = "" → p = [] ∨ p = [PurePath.root].
Proof.
  destruct p as [|a [|b l]]; [by left| |].
  - simpl. destruct (String.eqb_spec a PurePath.root) as [->|]; [by right|].
    intros H ->. done.
  - intros Hwf Hlast. exfalso.
    change (PurePath.name (a :: b :: l)) with (List.last (b :: l) "") in Hlast.
    simpl in Hwf. apply andb_true_iff in Hwf as [_ Hwf].
    change (forallb PurePath.wf_component (b :: l) = true) in Hwf.
    rewrite (app_removelast_last "" (l := b :: l)) in Hwf by done.
    rewrite forallb_app, Hlast in Hwf. simpl in Hwf.
    by rewrite andb_false_r in Hwf.
Qed.

(** ** Missing inputs *)

Lemma convert_missing_source (eng : Engine) (md_path docx_path : Path)
    (ref : option Path) (w : World) :
  Fs.is_file (fs w) (PurePath.resolve (cwd w) md_path) = false →
  convert_md_to_docx eng md_path docx_path ref w
  = (Raise (Exn FileNotFoundError
       ("Markdown file not found: " +:+ PurePath.str (PurePath.resolve (cwd w) md_path))
       None), w).
Proof. intros H. rewrite convert_md_to_docx_run. simpl. by rewrite H. Qed.

(** C5: for a path at which nothing exists, single-file conversion raises
    [FileNotFoundError] naming the resolved path, and the world it leaves is
    the world it found: no file, no directory, no call to the engine. *)
Theorem missing_input_changes_nothing (eng : Engine) (md_path : Path)
    (output ref : option Path) (w : World) :
  PurePath.wf md_path = true →
  Fs.exists_ (fs w) [PurePath.root] = true →
  Fs.exists_ (fs w) (PurePath.resolve (cwd w) []) = true →
  Fs.exists_ (fs w) (PurePath.resolve (cwd w) md_path) = false →
  run_single_file eng md_path output ref w
  = (Raise (Exn FileNotFoundError
       ("Markdown file not found: " +:+ PurePath.str (PurePath.resolve (cwd w) md_path))
       None), w).
Proof.
  intros Hwf Hroot Hcwd Hmd.
  assert (Fs.is_file (fs w) (PurePath.resolve (cwd w) md_path) = false) as Hfile.
  { unfold Fs.exists_ in Hmd. unfold Fs.is_file. by destruct (Fs.lookup _ _). }
  unfold run_single_file, mbind, M_bind.
  destruct output as [o|]; simpl.
  - unfold Sys.resolve. by rewrite convert_missing_source.
  - assert (PurePath.name md_path ≠ "") as Hname.
    { intros Hn. destruct (wf_unnamed _ Hwf Hn) as [-> | ->]; [congruence|].
      change (PurePath.resolve (cwd w) [PurePath.root]) with [PurePath.root] in Hmd.
      congruence. }
    unfold lift. rewrite with_suffix_named by done.
    by rewrite convert_missing_source.
Qed.

(** ** Discovered paths and their destinations *)

Lemma strip_prefix_Some (a p rest : Path) :
  PurePath.strip_prefix a p = Some rest → p = a ++ rest.
Proof.
  revert p. induction a as [|x a IH]; intros [|y p]; simpl; try congruence.
  destruct (String.eqb_spec x y) as [->|]; [|done]. intros H. f_equal. by apply IH.
Qed.

Lemma strip_prefix_app (a rest : Path) : PurePath.strip_prefix a (a ++ rest) = Some rest.
Proof. induction a as [|x a IH]; simpl; [by destruct rest|]. by rewrite String.eqb_refl. Qed.

Lemma name_snoc_nonempty (l : Path) (x : string) : l ≠ [] → PurePath.name (l ++ [x]) = x.
Proof.
  destruct l as [|a l]; [done|]. intros _. simpl.
  destruct (l ++ [x]) as [|b k] eqn:E; [by destruct l|].
  transitivity (List.last ((a :: l) ++ [x]) ""); [|apply last_last].
  simpl. by rewrite E.
Qed.

(** A discovered path lies strictly below the root and has a proper name. *)
Lemma md_paths_elem (t : FS) (root p : Path) (rec : bool) :
  p ∈ md_paths t root rec →
  (∃ rest, p = root ++ rest ∧ rest ≠ []) ∧
  PurePath.name p ≠ "" ∧ PurePath.name p ≠ PurePath.root.
Proof.
  unfold md_paths, Fs.rglob_md, Fs.iterdir, Fs.is_under, Fs.is_child, Fs.fnmatch_md,
    PurePath.suffix.
  destruct rec; rewrite !list_elem_of_filter, ?andb_True, ?Is_true_true.
  - intros [[Hu Hn] _].
    destruct (PurePath.strip_prefix root p) as [[|x rest]|] eqn:E; try done.
    apply strip_prefix_Some in E. split; [by exists (x :: rest)|].
    split; intros Hname; by rewrite Hname in Hn.
  - intros [[_ Hn] [Hu _]].
    destruct (PurePath.strip_prefix root p) as [[|x rest]|] eqn:E; try done.
    apply strip_prefix_Some in E. split; [by exists (x :: rest)|].
    split; intros Hname; by rewrite Hname in Hn.
Qed.

Lemma batch_docx_path_defined (root p : Path) (od : option Path) (w : World) :
  PurePath.is_absolute root = true →
  (∃ rest, p = root ++ rest ∧ rest ≠ []) →
  PurePath.name p ≠ "" → PurePath.name p ≠ PurePath.root →
  ∃ d, batch_docx_path root od p w = (Ok d, w).
Proof.
  intros Hroot (rest & -> & Hrest) Hn Hn'.
  destruct od as [o|]; simpl.
  - unfold mbind, M_bind, lift, relative_or_name, PurePath.relative_to.
    rewrite strip_prefix_app, Hroot, andb_false_r. simpl.
    assert (PurePath.name rest ≠ "") as Hr.
    { rewrite (app_removelast_last "" (l := rest)) in Hn, Hn' |- * by done.
      rewrite app_assoc in Hn, Hn'.
      rewrite name_snoc_nonempty in Hn, Hn' by (by destruct root).
      by rewrite name_snoc. }
    rewrite with_suffix_named by done. eauto.
  - unfold lift. rewrite with_suffix_named by done. eauto.
Qed.

Lemma convert_missing_reference (eng : Engine) (md_path docx_path ref : Path) (w : World) :
  Fs.is_file (fs w) (PurePath.resolve (cwd w) ref) = false →
  ∃ e, convert_md_to_docx eng md_path docx_path (Some ref) w = (Raise e, w) ∧
       exn_kind_of e = FileNotFoundError.
Proof.
  intros H. rewrite convert_md_to_docx_run. simpl. rewrite H.
  destruct (Fs.is_file (fs w) (PurePath.resolve (cwd w) md_path));
    eexists; split; reflexivity.
Qed.

(** C6: when the style reference is not a file, every conversion raises
    [FileNotFoundError] and leaves the world as it was, the engine's call log
    included; so a batch that discovers anything raises that error at its
    first file, again with the world unchanged. *)
Theorem missing_reference_aborts_batch (eng : Engine) (folder ref : Path)
    (od : option Path) (rec : bool) (w : World) :
  PurePath.is_absolute (cwd w) = true →
  Fs.is_file (fs w) (PurePath.resolve (cwd w) ref) = false →
  (∀ md_path docx_path, ∃ e,
     convert_md_to_docx eng md_path docx_path (Some ref) w = (Raise e, w) ∧
     exn_kind_of e = FileNotFoundError) ∧
  (∀ files, (collect_md_files folder rec w).1 = Ok files → files ≠ [] →
     ∃ e, run_folder eng folder od rec (Some ref) w = (Raise e, w) ∧
          exn_kind_of e = FileNotFoundError).
Proof.
  intros Hcwd Href. split.
  - intros md_path docx_path. by apply convert_missing_reference.
  - intros files Hfiles Hne.
    unfold run_folder, mbind, M_bind, Sys.resolve.
    rewrite collect_md_files_run in Hfiles |- *. simpl in *.
    destruct (Fs.is_dir _ _); simpl in *; [|done].
    injection Hfiles as Hfiles. rewrite Hfiles.
    destruct files as [|f rest]; [done|]. simpl.
    assert (f ∈ md_paths (fs w) (PurePath.resolve (cwd w) folder) rec) as Hf.
    { rewrite <- (merge_sort_Permutation PurePath.le). fold (sorted (md_paths (fs w)
        (PurePath.resolve (cwd w) folder) rec)). rewrite Hfiles. left. }
    apply md_paths_elem in Hf as (Hunder & Hn & Hn').
    destruct (batch_docx_path_defined (PurePath.resolve (cwd w) folder) f od w)
      as [d Hd]; auto using resolve_absolute.
    unfold convert_one, mbind, M_bind. rewrite Hd.
    destruct (convert_missing_reference eng f d ref w Href) as (e & -> & He). eauto.
Qed.

(** ** The batch *)

Lemma batch_docx_path_cwd (root p : Path) (od : option Path) (w w' : World) :
  cwd w' = cwd w →
  batch_docx_path root od p w' = ((batch_docx_path root od p w).1, w').
Proof.
  intros Hcwd. destruct od as [o|]; simpl; [|done].
  unfold mbind, M_bind, lift, Sys.resolve, mret, M_ret. rewrite Hcwd.
  destruct (relative_or_name p root) as [rel|]; [|done].
  by destruct (obj_with_suffix rel "").
Qed.

Lemma convert_one_effect (eng : Engine) (root p : Path) (od ref : option Path)
    (w w' : World) (r : result Path) :
  convert_one eng root od ref p w = (r, w') →
  cwd w' = cwd w ∧ files_kept w w' ∧
  match r with
  | Ok d =>
      (batch_docx_path root od p w).1 = Ok d ∧
      Fs.is_file (fs w') (PurePath.resolve (cwd w) d) = true ∧
      ∃ c, calls w' = calls w ++ [c] ∧
           source c = PurePath.str (PurePath.resolve (cwd w) p)
  | Raise _ =>
      calls w' = calls w ∨
      ∃ c, calls w' = calls w ++ [c] ∧
           source c = PurePath.str (PurePath.resolve (cwd w) p)
  end.
Proof.
  unfold convert_one, mbind, M_bind.
  rewrite (batch_docx_path_cwd root p od w w eq_refl).
  destruct (batch_docx_path root od p w).1 as [d|e]; simpl.
  - destruct (convert_md_to_docx eng p d ref w) as [[[]|e] w1] eqn:Hc;
      apply convert_md_to_docx_effect in Hc as (Hcwd & Hkept & Hr);
      intros [= <- <-]; split_and!; auto.
    + by destruct Hr.
    + destruct Hr as [-> _]. eauto.
    + destruct Hr as [->| ->]; eauto.
  - intros [= <- <-]. split_and!; auto using files_kept_refl.
Qed.

Lemma convert_each_app (eng : Engine) (root : Path) (od ref : option Path)
    (pre rest acc : list Path) (w : World) :
  convert_each eng root od ref (pre ++ rest) acc w =
  match convert_each eng root od ref pre acc w with
  | (Ok acc', w1) => convert_each eng root od ref rest acc' w1
  | (Raise e, w1) => (Raise e, w1)
  end.
Proof.
  revert acc w. induction pre as [|p pre IH]; intros acc w; simpl; [done|].
  unfold mbind, M_bind.
  destruct (convert_one eng root od ref p w) as [[d|e] w1]; [apply IH|done].
Qed.

(** A batch that ran to its end: the destinations returned are the derived
    ones, in order; each is a file afterwards; the engine was called once per
    input, in order. *)
Lemma convert_each_Ok (eng : Engine) (root : Path) (od ref : option Path)
    (pre acc outs : list Path) (w w1 : World) :
  convert_each eng root od ref pre acc w = (Ok outs, w1) →
  cwd w1 = cwd w ∧ files_kept w w1 ∧
  ∃ ds cs,
    outs = acc ++ ds ∧
    Forall2 (λ p d, (batch_docx_path root od p w).1 = Ok d ∧
                    Fs.is_file (fs w1) (PurePath.resolve (cwd w) d) = true) pre ds ∧
    calls w1 = calls w ++ cs ∧
    map source cs = map (λ p, PurePath.str (PurePath.resolve (cwd w) p)) pre.
Proof.
  revert acc w. induction pre as [|p pre IH]; intros acc w; simpl.
  - intros [= <- <-]. split_and!; auto using files_kept_refl.
    exists [], []. by rewrite !app_nil_r.
  - unfold mbind, M_bind.
    destruct (convert_one eng root od ref p w) as [[d|e] wa] eqn:Hone; [|done].
    apply convert_one_effect in Hone as (Hcwd & Hkept & Hd & Hfile & c & Hc & Hsrc).
    intros Hrest. apply IH in Hrest as (Hcwd1 & Hkept1 & ds & cs & -> & Hall & Hcs & Hsrcs).
    split_and!; [congruence|eauto using files_kept_trans|].
    exists (d :: ds), (c :: cs). split_and!.
    + by rewrite <- app_assoc.
    + constructor; [split; [done|by apply Hkept1]|].
      eapply Forall2_impl; [done|]. intros p' d'. simpl.
      rewrite (batch_docx_path_cwd root p' od w wa Hcwd), Hcwd. done.
    + rewrite Hcs, Hc. by rewrite <- app_assoc.
    + simpl. rewrite Hsrc, Hsrcs, Hcwd. done.
Qed.

(** C2: when the conversions of the files before [f] succeed and the one of
    [f] raises [e], the batch raises [e] and returns no list; every file
    before [f] has its destination on disk; and the engine was called for
    the files before [f], in discovery order, then at most once for [f], and
    for no file after it. *)
Theorem batch_stops_at_first_failure (eng : Engine) (folder : Path)
    (od ref : option Path) (rec : bool) (pre post : list Path) (f : Path)
    (w : World) (outs : list Path) (e : exn) (w1 w2 : World) :
  let root := PurePath.resolve (cwd w) folder in
  let src p := PurePath.str (PurePath.resolve (cwd w) p) in
  (collect_md_files folder rec w).1 = Ok (pre ++ f :: post) →
  convert_each eng root od ref pre [] w = (Ok outs, w1) →
  convert_one eng root od ref f w1 = (Raise e, w2) →
  run_folder eng folder od rec ref w = (Raise e, w2) ∧
  Forall2 (λ p d, (batch_docx_path root od p w).1 = Ok d ∧
                  Fs.is_file (fs w2) (PurePath.resolve (cwd w) d) = true) pre outs ∧
  ∃ attempted,
    calls w2 = calls w ++ attempted ∧
    (map source attempted = map src pre ∨ map source attempted = map src (pre ++ [f])).
Proof.
  intros root src Hfiles Hpre Hf.
  pose proof (convert_each_Ok _ _ _ _ _ _ _ _ _ Hpre)
    as (Hcwd & Hkept & ds & cs & Houts & Hall & Hcs & Hsrcs).
  pose proof (convert_one_effect _ _ _ _ _ _ _ _ Hf) as (Hcwd2 & Hkept2 & Hcalls).
  simpl in Houts. subst outs. split_and!.
  - unfold run_folder, mbind, M_bind, Sys.resolve.
    rewrite collect_md_files_run in Hfiles |- *. simpl in *.
    destruct (Fs.is_dir _ _); simpl in *; [|done].
    injection Hfiles as ->.
    destruct (pre ++ f :: post) as [|x l] eqn:E; [by destruct pre|]. rewrite <- E.
    fold root. rewrite convert_each_app, Hpre. simpl.
    unfold mbind, M_bind. by rewrite Hf.
  - eapply Forall2_impl; [done|]. intros p d [? ?]. split; [done|]. by apply Hkept2.
  - destruct Hcalls as [Hsame|(c & Hc & Hsrc)].
    + exists cs. split; [congruence|by left].
    + exists (cs ++ [c]). split; [by rewrite Hc, Hcs, <- app_assoc|right].
      rewrite !map_app. simpl. rewrite Hsrcs, Hsrc, Hcwd. done.
Qed.

(** ** Worked instances *)

Lemma collect_md_files_sorted_deterministic_witness :
  (collect_md_files (Demo.P "/docs") true (Demo.world (reverse Demo.tree))).1
  = (collect_md_files (Demo.P "/docs") true Demo.w0).1.
Proof.
  apply (collect_md_files_sorted_deterministic Demo.w0 (Demo.world (reverse Demo.tree))).
  - apply (bool_decide_unpack _). vm_compute. exact I.
  - apply reverse_Permutation.
  - reflexivity.
Defined.

Lemma empty_discovery_exit_status_witness :
  (main Demo.engine_ok (Demo.folder_args "/empty") Demo.w0).1 = Ok 1%Z ∧
  (main Demo.engine_ok (Demo.folder_args "/docs") Demo.w0).1 = Ok 0%Z.
Proof.
  split.
  - destruct (empty_discovery_exit_status Demo.engine_ok (Demo.folder_args "/empty")
                (Demo.P "/empty") Demo.w0 eq_refl) as [H _].
    destruct H as (_ & _ & ->); [vm_compute; reflexivity..|]. reflexivity.
  - destruct (empty_discovery_exit_status Demo.engine_ok (Demo.folder_args "/docs")
                (Demo.P "/docs") Demo.w0 eq_refl) as [_ H].
    erewrite H; [reflexivity|vm_compute; reflexivity|discriminate].
Defined.

Lemma single_file_destination_witness :
  single_out_path (Demo.P "docs/a.md") None Demo.w0 = (Ok (Demo.P "docs/a.docx"), Demo.w0).
Proof.
  destruct (single_file_destination Demo.engine_ok (Demo.P "docs/a.md") None None Demo.w0)
    as (_ & H & _).
  destruct (H eq_refl) as (H1 & _); [|exact H1].
  intros E. vm_compute in E. discriminate E.
Defined.

Lemma missing_input_changes_nothing_witness :
  run_single_file Demo.engine_ok (Demo.P "/docs/missing.md") None None Demo.w0
  = (Raise (Exn FileNotFoundError "Markdown file not found: /docs/missing.md" None),
     Demo.w0).
Proof.
  apply (missing_input_changes_nothing Demo.engine_ok (Demo.P "/docs/missing.md")
           None None Demo.w0); vm_compute; reflexivity.
Defined.

Lemma missing_reference_aborts_batch_witness :
  ∃ e, run_folder Demo.engine_ok (Demo.P "/docs") None false
         (Some (Demo.P "/nowhere/ref.docx")) Demo.w0 = (Raise e, Demo.w0) ∧
       exn_kind_of e = FileNotFoundError.
Proof.
  destruct (missing_reference_aborts_batch Demo.engine_ok (Demo.P "/docs")
              (Demo.P "/nowhere/ref.docx") None false Demo.w0) as [_ H].
  - reflexivity.
  - vm_compute. reflexivity.
  - eapply H; [vm_compute; reflexivity|discriminate].
Defined.


Lemma engine_failure_surfaces_once_witness :
  ∃ w', convert_md_to_docx (Demo.engine_failing_on "/docs/a.md" Demo.pandoc_died)
          (Demo.P "/docs/a.md") (Demo.P "/out/a.docx") None Demo.w0
        = (Raise Demo.pandoc_died, w') ∧
        length (calls w') = 1.
Proof.
  edestruct (engine_failure_surfaces_once
               (Demo.engine_failing_on "/docs/a.md" Demo.pandoc_died)
               (Demo.P "/docs/a.md") (Demo.P "/out/a.docx") None Demo.w0)
    as (_ & H & _).
  - vm_compute. reflexivity.
  - discriminate.
  - vm_compute. reflexivity.
  - eexists. split; [apply (H eq_refl); vm_compute; reflexivity|reflexivity].
Defined.

Lemma batch_stops_at_first_failure_witness :
  ∃ w2,
    run_folder (Demo.engine_failing_on "/r/3.md" Demo.pandoc_died) (Demo.P "/r")
      None false None (Demo.world Demo.five) = (Raise Demo.pandoc_died, w2) ∧
    Forall (λ d, Fs.is_file (fs w2) d = true) [Demo.P "/r/1.docx"; Demo.P "/r/2.docx"] ∧
    map source (calls w2) = ["/r/1.md"; "/r/2.md"; "/r/3.md"].
Proof.
  edestruct (batch_stops_at_first_failure
               (Demo.engine_failing_on "/r/3.md" Demo.pandoc_died) (Demo.P "/r")
               None None false [Demo.P "/r/1.md"; Demo.P "/r/2.md"]
               [Demo.P "/r/4.md"; Demo.P "/r/5.md"] (Demo.P "/r/3.md")
               (Demo.world Demo.five))
    as (H & _ & _).
  - vm_compute. reflexivity.
  - vm_compute. reflexivity.
  - vm_compute. reflexivity.
  - eexists. split; [exact H|]. split; [|vm_compute; reflexivity].
    repeat constructor.
Defined.

(** ** The flat name of an input below the root *)

Lemma replace_no_sep (s : string) :
  PyStr.contains PyStr.sep (PyStr.replace PyStr.sep "_" s) = false.
Proof.
  induction s as [|a s IH]; [done|]. simpl. rewrite IH, orb_false_r.
  by destruct (Ascii.eqb a PyStr.sep) eqn:E.
Qed.

Lemma contains_app (c : ascii) (s t : string) :
  PyStr.contains c (s +:+ t) = PyStr.contains c s || PyStr.contains c t.
Proof.
  induction s as [|a s IH]; [done|]. rewrite string_app_cons. simpl.
  by rewrite IH, orb_assoc.
Qed.

Lemma split_no_occurrence (s : string) :
  PyStr.contains PyStr.sep s = false → PyStr.split PyStr.sep s = [s].
Proof.
  induction s as [|a s IH]; [done|]. simpl.
  intros [Ha Hs]%orb_false_iff. by rewrite Ha, (IH Hs).
Qed.

(** A string without separator that is neither empty nor a dot is a path of
    one component. *)
Lemma of_string_component (s : string) :
  PyStr.contains PyStr.sep s = false → s ≠ "" → s ≠ "." →
  PurePath.of_string s = [s] ∧ PurePath.is_absolute [s] = false.
Proof.
  intros Hs H1 H2. unfold PurePath.of_string.
  rewrite (split_no_occurrence s Hs).
  rewrite filter_cons_True, filter_nil by done.
  assert (PyStr.startswith s PurePath.root = false) as ->.
  { destruct s as [|a s]; [done|]. simpl in Hs.
    apply orb_false_iff in Hs as [Ha _].
    change (PyStr.startswith (String a s) PurePath.root)
      with (if ascii_dec "/" a then String.prefix "" s else false).
    destruct (ascii_dec "/" a) as [<-|]; [|done].
    by rewrite Ascii.eqb_refl in Ha. }
  split; [done|]. simpl. apply String.eqb_neq. intros ->. done.
Qed.

(** For an input below the root and an output directory, the destination is
    the resolved output directory joined with the relative path, suffix
    stripped, separators replaced by underscores, [".docx"] appended. *)
Lemma batch_docx_path_under_root (root rest od : Path) (w : World) :
  PurePath.is_absolute root = true → rest ≠ [] →
  PurePath.name (root ++ rest) ≠ "" → PurePath.name (root ++ rest) ≠ PurePath.root →
  let flat := PyStr.replace PyStr.sep "_"
                (PurePath.str (PurePath.parent rest ++ [PurePath.stem rest])) in
  batch_docx_path root (Some od) (root ++ rest) w
  = (Ok (PurePath.resolve (cwd w) od ++ [flat +:+ ".docx"]), w) ∧
  PyStr.contains PyStr.sep flat = false.
Proof.
  intros Hroot Hrest Hn Hn' flat.
  split; [|apply replace_no_sep].
  assert (PurePath.name rest ≠ "") as Hr.
  { rewrite (app_removelast_last "" (l := rest)) in Hn, Hn' |- * by done.
    rewrite app_assoc in Hn, Hn'.
    rewrite name_snoc_nonempty in Hn, Hn' by (by destruct root).
    by rewrite name_snoc. }
  simpl. unfold mbind, M_bind, lift, relative_or_name, PurePath.relative_to, Sys.resolve,
    mret, M_ret.
  rewrite strip_prefix_app, Hroot, andb_false_r. simpl.
  rewrite with_suffix_named by done. simpl.
  rewrite string_app_nil_r. fold flat.
  destruct (of_string_component (flat +:+ ".docx")) as [-> Habs].
  - rewrite contains_app. unfold flat. by rewrite replace_no_sep.
  - intros E. apply (f_equal String.length) in E.
    rewrite string_length_app in E. simpl in E. lia.
  - intros E. apply (f_equal String.length) in E.
    rewrite string_length_app in E. simpl in E. lia.
  - unfold PurePath.joinpath. by rewrite Habs.
Qed.

Lemma relative_name (root rest : Path) :
  root ≠ [] → rest ≠ [] →
  PurePath.name (root ++ rest) ≠ "" → PurePath.name (root ++ rest) ≠ PurePath.root →
  PurePath.name rest = PurePath.name (root ++ rest).
Proof.
  intros Hroot Hrest Hn Hn'.
  assert (root ++ removelast rest ≠ []) as Hne by by destruct root.
  rewrite (app_removelast_last "" (l := rest)) in Hn, Hn' |- * by done.
  rewrite app_assoc in Hn, Hn' |- *.
  rewrite (name_snoc_nonempty (root ++ removelast rest)) in Hn, Hn' |- * by done.
  by rewrite name_snoc.
Qed.

(** C1: in a batch with an output directory, every discovered file lies
    strictly below the resolved root, so its relative path is what the
    derivation uses (the fall-back to the bare name is never taken); the
    destination is the resolved output directory joined with that relative
    path, its suffix stripped, every separator replaced by an underscore,
    and [".docx"] appended.  In particular [sub1/note.md] and [sub2/note.md]
    below the root go to [sub1_note.docx] and [sub2_note.docx], which
    differ. *)
Theorem batch_destination_of_discovered_file (w : World) (folder od : Path) (rec : bool)
    (files : list Path) :
  PurePath.is_absolute (cwd w) = true →
  (collect_md_files folder rec w).1 = Ok files →
  let root := PurePath.resolve (cwd w) folder in
  let out := PurePath.resolve (cwd w) od in
  (∀ p, p ∈ files →
     ∃ rest,
       p = root ++ rest ∧ rest ≠ [] ∧
       relative_or_name p root = Ok (PathObj rest) ∧
       rest = PurePath.parent rest ++ [PurePath.stem rest +:+ PurePath.suffix rest] ∧
       let flat := PyStr.replace PyStr.sep "_"
                     (PurePath.str (PurePath.parent rest ++ [PurePath.stem rest])) in
       PyStr.contains PyStr.sep flat = false ∧
       batch_docx_path root (Some od) p w = (Ok (out ++ [flat +:+ ".docx"]), w)) ∧
  batch_docx_path root (Some od) (root ++ ["sub1"; "note.md"]) w
    = (Ok (out ++ ["sub1_note.docx"]), w) ∧
  batch_docx_path root (Some od) (root ++ ["sub2"; "note.md"]) w
    = (Ok (out ++ ["sub2_note.docx"]), w) ∧
  out ++ ["sub1_note.docx"] ≠ out ++ ["sub2_note.docx"].
Proof.
  intros Hcwd Hfiles root out.
  assert (PurePath.is_absolute root = true) as Hroot by by apply resolve_absolute.
  assert (root ≠ []) as Hne by by destruct root.
  assert (∀ d f, f ≠ "" → f ≠ PurePath.root →
                 PurePath.name (root ++ [d; f]) ≠ "" ∧
                 PurePath.name (root ++ [d; f]) ≠ PurePath.root) as Hnamed.
  { intros d f ? ?. change (root ++ [d; f]) with (root ++ [d] ++ [f]).
    rewrite app_assoc, name_snoc_nonempty; [done|by destruct root]. }
  split_and!.
  - intros p Hp.
    rewrite collect_md_files_run in Hfiles. simpl in Hfiles. fold root in Hfiles.
    destruct (Fs.is_dir (fs w) root); [|done]. simpl in Hfiles. injection Hfiles as <-.
    unfold sorted in Hp. rewrite merge_sort_Permutation in Hp.
    apply md_paths_elem in Hp as ((rest & -> & Hrest) & Hn & Hn').
    destruct (batch_docx_path_under_root root rest od w Hroot Hrest Hn Hn')
      as [Hd Hflat].
    pose proof (relative_name root rest Hne Hrest Hn Hn') as Hname.
    exists rest. split_and!; try done.
    + unfold relative_or_name, PurePath.relative_to.
      by rewrite strip_prefix_app, Hroot, andb_false_r.
    + unfold PurePath.stem, PurePath.suffix. rewrite name_stem_suffix.
      rewrite named_path_parent by congruence. apply named_path_split. congruence.
  - destruct (Hnamed "sub1" "note.md") as [? ?]; [done..|].
    by destruct (batch_docx_path_under_root root ["sub1"; "note.md"] od w) as [Hd _].
  - destruct (Hnamed "sub2" "note.md") as [? ?]; [done..|].
    by destruct (batch_docx_path_under_root root ["sub2"; "note.md"] od w) as [Hd _].
  - intros E. by apply app_inv_head in E.
Qed.

Lemma batch_destination_of_discovered_file_witness :
  batch_docx_path (Demo.P "/docs") (Some (Demo.P "/out")) (Demo.P "/docs/sub1/note.md")
    Demo.w0 = (Ok (Demo.P "/out/sub1_note.docx"), Demo.w0) ∧
  relative_or_name (Demo.P "/docs/sub2/note.md") (Demo.P "/docs")
  = Ok (PathObj ["sub2"; "note.md"]).
Proof.
  destruct (batch_destination_of_discovered_file Demo.w0 (Demo.P "/docs") (Demo.P "/out")
              true
              [Demo.P "/docs/a.md"; Demo.P "/docs/archive.md";
               Demo.P "/docs/sub1/note.md"; Demo.P "/docs/sub2/note.md"])
    as (Hall & H1 & _).
  - reflexivity.
  - vm_compute. reflexivity.
  - split; [exact H1|].
    destruct (Hall (Demo.P "/docs/sub2/note.md")) as (rest & Hp & _ & Hrel & _).
    + apply (bool_decide_unpack _). vm_compute. exact I.
    + vm_compute in Hp. injection Hp as <-. exact Hrel.
Defined.

(** * Further properties of [convert.py] *)

(** ** How the entry points unfold *)

Lemma run_folder_run (eng : Engine) (folder : Path) (od ref : option Path)
    (rec : bool) (w : World) :
  run_folder eng folder od rec ref w =
  let root := PurePath.resolve (cwd w) folder in
  if Fs.is_dir (fs w) root then
    match sorted (md_paths (fs w) root rec) with
    | [] => (Ok [], w)
    | files => convert_each eng root od ref files [] w
    end
  else (Raise (Exn NotADirectoryError
                 ("Not a directory: " +:+ PurePath.str root) None), w).
Proof.
  unfold run_folder, mbind, M_bind. rewrite collect_md_files_run. simpl.
  destruct (Fs.is_dir _ _); [|done].
  by destruct (sorted _).
Qed.

Lemma run_single_file_run (eng : Engine) (md_path : Path) (output ref : option Path)
    (w : World) :
  run_single_file eng md_path output ref w =
  match (single_out_path md_path output w).1 with
  | Ok out =>
      match convert_md_to_docx eng md_path out ref w with
      | (Ok _, w') => (Ok out, w')
      | (Raise e, w') => (Raise e, w')
      end
  | Raise e => (Raise e, w)
  end.
Proof.
  unfold run_single_file, mbind, M_bind.
  pose proof (single_out_path_world md_path output w) as Hw.
  destruct (single_out_path md_path output w) as [[out|e] w1]; simpl in *; subst w1;
    [|done].
  by destruct (convert_md_to_docx eng md_path out ref w) as [[[]|e] w1].
Qed.

(** What the body of the [try] in [main] runs, by mode. *)
Definition mode_run (eng : Engine) (args : Args) : M (list Path) :=
  match mode args with
  | FileMode file =>
      out ← run_single_file eng file (output args) (reference_doc args);
      mret [out]
  | FolderMode folder =>
      run_folder eng folder (output_dir args) (recursive args) (reference_doc args)
  end.

Lemma main_run (eng : Engine) (args : Args) (w : World) :
  main eng args w =
  match mode_run eng args w with
  | (Ok outs, w') =>
      match mode args, outs with
      | FolderMode _, [] => (Ok 1%Z, add_stderr ["No .md files found."] w')
      | _, _ => (Ok 0%Z,
                 add_stdout (map (λ p, "Created: " +:+ PurePath.str p) outs) w')
      end
  | (Raise e, w') =>
      if handled (exn_kind_of e)
      then (Ok 1%Z, add_stderr ["Error: " +:+ exn_msg e] w')
      else (Raise e, w')
  end.
Proof.
  unfold main, mode_run, try_except, mbind, M_bind.
  destruct (mode args) as [file|folder].
  - destruct (run_single_file eng file (output args) (reference_doc args) w)
      as [[out|e] w1]; simpl; [done|].
    by destruct (handled (exn_kind_of e)).
  - destruct (run_folder eng folder (output_dir args) (recursive args)
                (reference_doc args) w) as [[outs|e] w1]; simpl.
    + destruct outs as [|p ps]; [done|]. by rewrite print_created_run.
    + by destruct (handled (exn_kind_of e)).
Qed.

(** ** The command line: errors and exit status *)

(** X1: a folder-mode root that is not a directory (absent, or a regular
    file) makes discovery and the batch raise [NotADirectoryError] naming the
    resolved root, with the world untouched, and makes [main] print that
    message behind ["Error: "] on the error stream and exit with 1. *)
Theorem invalid_root_is_reported (eng : Engine) (args : Args) (folder : Path) (w : World) :
  mode args = FolderMode folder →
  Fs.is_dir (fs w) (PurePath.resolve (cwd w) folder) = false →
  let shown := PurePath.str (PurePath.resolve (cwd w) folder) in
  let e := Exn NotADirectoryError ("Not a directory: " +:+ shown) None in
  collect_md_files folder (recursive args) w = (Raise e, w) ∧
  run_folder eng folder (output_dir args) (recursive args) (reference_doc args) w
    = (Raise e, w) ∧
  main eng args w = (Ok 1%Z, add_stderr ["Error: Not a directory: " +:+ shown] w).
Proof.
  intros Hmode Hdir shown e. split_and!.
  - rewrite collect_md_files_run. simpl. by rewrite Hdir.
  - rewrite run_folder_run. simpl. by rewrite Hdir.
  - rewrite main_run. unfold mode_run. rewrite Hmode, run_folder_run. simpl.
    by rewrite Hdir.
Qed.

(** The class [k] is [target] or derives from it through the bases given
    with the classes outside the list. *)
Inductive derives_from : exn_kind → exn_kind → Prop :=
| derives_refl k : derives_from k k
| derives_base name base target :
    derives_from base target → derives_from (OtherError name base) target.

Lemma handled_derives (k : exn_kind) :
  handled k = true ↔
  ∃ caught, caught ∈ [FileNotFoundError; NotADirectoryError; RuntimeError] ∧
            derives_from k caught.
Proof.
  split.
  - induction k as [| | | | | | | | |name base IH]; simpl; try done.
    + intros _. exists FileNotFoundError. split; repeat constructor.
    + intros _. exists NotADirectoryError. split; repeat constructor.
    + intros _. exists RuntimeError. split; repeat constructor.
    + intros H. destruct (IH H) as (c & Hc & Hd). exists c. split; [done|].
      by constructor.
  - intros (c & Hc & Hd). induction Hd as [k|name base target Hd IH]; [|by apply IH].
    repeat (apply elem_of_cons in Hc as [->|Hc]); try done.
    by apply elem_of_nil in Hc.
Qed.

(** X2: whatever the mode's run raises, [main] turns into exit status 1 and
    one ["Error: ..."] line on the error stream when it is an instance of
    [FileNotFoundError], [NotADirectoryError] or [RuntimeError] (the class
    itself or a class deriving from it, such as [NotImplementedError]), and
    lets through unchanged when it is not; the standard output gets nothing
    and the world is the one the run left. *)
Theorem main_reports_or_propagates (eng : Engine) (args : Args) (w w' : World) (e : exn) :
  match mode args with
  | FileMode file =>
      run_single_file eng file (output args) (reference_doc args) w = (Raise e, w')
  | FolderMode folder =>
      run_folder eng folder (output_dir args) (recursive args) (reference_doc args) w
        = (Raise e, w')
  end →
  main eng args w =
    (if handled (exn_kind_of e)
     then (Ok 1%Z, add_stderr ["Error: " +:+ exn_msg e] w')
     else (Raise e, w')) ∧
  (handled (exn_kind_of e) = true ↔
   ∃ caught, caught ∈ [FileNotFoundError; NotADirectoryError; RuntimeError] ∧
             derives_from (exn_kind_of e) caught).
Proof.
  intros Hrun. split; [|apply handled_derives].
  rewrite main_run. unfold mode_run, mbind, M_bind.
  destruct (mode args); by rewrite Hrun.
Qed.

(** X3: when [main] returns, the exit status is 0 or 1; when it raises, the
    exception is none of the three kinds its [except] clause names. *)
Theorem main_exit_status (eng : Engine) (args : Args) (w : World) :
  match (main eng args w).1 with
  | Ok status => status = 0%Z ∨ status = 1%Z
  | Raise e => handled (exn_kind_of e) = false
  end.
Proof.
  rewrite main_run.
  destruct (mode_run eng args w) as [[outs|e] w1].
  - destruct (mode args), outs; simpl; auto.
  - destruct (handled (exn_kind_of e)) eqn:E; simpl; auto.
Qed.

(** ** One conversion: success, and a blocked destination *)

Lemma convert_checked_Ok (eng : Engine) (md docx : Path) (ref : option Path)
    (w w' : World) :
  convert_checked eng md docx ref w = (Ok tt, w') →
  importable eng = true ∧
  calls w' = calls w ++ [engine_call md docx ref] ∧
  Fs.is_file (fs w') docx = true ∧
  (PurePath.parent docx ≠ docx → Fs.is_dir (fs w') (PurePath.parent docx) = true).
Proof.
  unfold convert_checked.
  destruct (Fs.mkdir _ _ _ _) as [fs1|e] eqn:Hmk; [|done].
  apply mkdir_go_Ok in Hmk as [Hdir _].
  destruct (importable eng); [|done].
  destruct (outcome eng _ fs1); [done|]. intros [= <-]. simpl.
  split_and!; try done.
  - unfold Fs.is_file. by rewrite lookup_set, decide_True.
  - intros Hne. unfold Fs.is_dir in *. rewrite lookup_set. by rewrite decide_False.
Qed.

(** X4: a conversion that returns found the source (and the reference, if
    one was given) as regular files and the engine importable; it called the
    engine exactly once, with the resolved source and destination, target
    ["docx"], source format ["markdown+hard_line_breaks"], the source's
    directory as resource path and the resolved reference if any; and it
    leaves a regular file at the destination, inside a directory. *)
Theorem conversion_success (eng : Engine) (md_path docx_path : Path)
    (ref : option Path) (w w' : World) :
  convert_md_to_docx eng md_path docx_path ref w = (Ok tt, w') →
  let md := PurePath.resolve (cwd w) md_path in
  let docx := PurePath.resolve (cwd w) docx_path in
  Fs.is_file (fs w) md = true ∧
  (∀ r, ref = Some r → Fs.is_file (fs w) (PurePath.resolve (cwd w) r) = true) ∧
  importable eng = true ∧
  Fs.is_file (fs w') docx = true ∧
  (PurePath.parent docx ≠ docx → Fs.is_dir (fs w') (PurePath.parent docx) = true) ∧
  calls w' = calls w ++
    [ {| source := PurePath.str md;
         to_format := "docx";
         outputfile := PurePath.str docx;
         format := "markdown+hard_line_breaks";
         extra_args :=
           ("--resource-path=" +:+ PurePath.str (PurePath.parent md))
           :: match ref with
              | Some r => ["--reference-doc"; PurePath.str (PurePath.resolve (cwd w) r)]
              | None => []
              end |} ].
Proof.
  rewrite convert_md_to_docx_run. simpl.
  destruct (Fs.is_file (fs w) (PurePath.resolve (cwd w) md_path)) eqn:Hmd; [|done].
  destruct ref as [r|].
  - destruct (Fs.is_file (fs w) (PurePath.resolve (cwd w) r)) eqn:Hr; [|done].
    intros (? & ? & ? & ?)%convert_checked_Ok. split_and!; try done.
    by intros ? [= <-].
  - intros (? & ? & ? & ?)%convert_checked_Ok. split_and!; done.
Qed.

Lemma mkdir_blocked (t : FS) (d : Path) :
  (Fs.is_file t d = true →
   Fs.mkdir true true t d
   = Raise (Fs.errno FileExistsError "[Errno 17] File exists" d)) ∧
  (Fs.lookup t d = None → Fs.is_file t (PurePath.parent d) = true →
   Fs.mkdir true true t d
   = Raise (Fs.errno NotADirectoryError "[Errno 20] Not a directory" d)).
Proof.
  unfold Fs.mkdir, Fs.is_file. simpl. unfold Fs.os_mkdir, Fs.is_dir. split.
  - destruct (Fs.lookup t d) as [[]|]; try done.
  - intros ->. by destruct (Fs.lookup t (PurePath.parent d)) as [[]|].
Qed.

(** X5: with the source in place, a regular file where the destination's
    directory should be makes the conversion raise [FileExistsError], which
    [main] does not catch; a regular file one level further up makes it raise
    [NotADirectoryError], which [main] does catch.  Either way the engine is
    not called and nothing is created. *)
Theorem blocked_destination_directory (eng : Engine) (md_path docx_path : Path)
    (ref : option Path) (w : World) :
  let dir := PurePath.parent (PurePath.resolve (cwd w) docx_path) in
  Fs.is_file (fs w) (PurePath.resolve (cwd w) md_path) = true →
  (∀ r, ref = Some r → Fs.is_file (fs w) (PurePath.resolve (cwd w) r) = true) →
  (Fs.is_file (fs w) dir = true →
   ∃ e, convert_md_to_docx eng md_path docx_path ref w = (Raise e, w) ∧
        exn_kind_of e = FileExistsError ∧ handled (exn_kind_of e) = false) ∧
  (Fs.lookup (fs w) dir = None → Fs.is_file (fs w) (PurePath.parent dir) = true →
   ∃ e, convert_md_to_docx eng md_path docx_path ref w = (Raise e, w) ∧
        exn_kind_of e = NotADirectoryError ∧ handled (exn_kind_of e) = true).
Proof.
  intros dir Hmd Href.
  assert (convert_md_to_docx eng md_path docx_path ref w
          = convert_checked eng (PurePath.resolve (cwd w) md_path)
              (PurePath.resolve (cwd w) docx_path)
              (PurePath.resolve (cwd w) <$> ref) w) as ->.
  { rewrite convert_md_to_docx_run. simpl. rewrite Hmd.
    destruct ref as [r|]; simpl; [|done]. by rewrite (Href r eq_refl). }
  unfold convert_checked. fold dir. split.
  - intros H. rewrite (proj1 (mkdir_blocked (fs w) dir) H). eauto.
  - intros H1 H2. rewrite (proj2 (mkdir_blocked (fs w) dir) H1 H2). eauto.
Qed.

(** ** What a run never does *)

(** From [w] to [w']: same working directory, every regular file still a
    regular file, the engine's call log only extended, nothing printed. *)
Definition quiet_step (w w' : World) : Prop :=
  cwd w' = cwd w ∧ files_kept w w' ∧ calls w `prefix_of` calls w' ∧
  stdout w' = stdout w ∧ stderr w' = stderr w.

Lemma quiet_step_refl (w : World) : quiet_step w w.
Proof. unfold quiet_step. split_and!; auto using files_kept_refl. Qed.

Lemma quiet_step_trans (w1 w2 w3 : World) :
  quiet_step w1 w2 → quiet_step w2 w3 → quiet_step w1 w3.
Proof.
  intros (? & ? & ? & ? & ?) (? & ? & ? & ? & ?).
  split_and!; try congruence; [eauto using files_kept_trans|by etrans].
Qed.

Lemma convert_md_to_docx_streams (eng : Engine) (md_path docx_path : Path)
    (ref : option Path) (w w' : World) (r : result unit) :
  convert_md_to_docx eng md_path docx_path ref w = (r, w') →
  stdout w' = stdout w ∧ stderr w' = stderr w.
Proof.
  rewrite convert_md_to_docx_run. simpl.
  assert (∀ md docx rf, convert_checked eng md docx rf w = (r, w') →
                        stdout w' = stdout w ∧ stderr w' = stderr w) as Hc.
  { intros md docx rf. unfold convert_checked.
    destruct (Fs.mkdir _ _ _ _); [|by intros [= <- <-]].
    destruct (importable eng); [|by intros [= <- <-]].
    destruct (outcome eng _ _); by intros [= <- <-]. }
  destruct (Fs.is_file (fs w) _); [|by intros [= <- <-]].
  destruct ref as [x|]; [|apply Hc].
  destruct (Fs.is_file (fs w) _); [apply Hc|by intros [= <- <-]].
Qed.

Lemma convert_md_to_docx_quiet (eng : Engine) (md_path docx_path : Path)
    (ref : option Path) (w w' : World) (r : result unit) :
  convert_md_to_docx eng md_path docx_path ref w = (r, w') → quiet_step w w'.
Proof.
  intros H. pose proof (convert_md_to_docx_streams _ _ _ _ _ _ _ H) as [? ?].
  apply convert_md_to_docx_effect in H as (? & ? & Hr).
  split_and!; try done.
  destruct r; [destruct Hr as [-> _]|destruct Hr as [->| ->]];
    first [reflexivity | by eexists].
Qed.

Lemma convert_one_quiet (eng : Engine) (root p : Path) (od ref : option Path)
    (w w' : World) (r : result Path) :
  convert_one eng root od ref p w = (r, w') → quiet_step w w'.
Proof.
  unfold convert_one, mbind, M_bind.
  rewrite (batch_docx_path_cwd root p od w w eq_refl).
  destruct (batch_docx_path root od p w).1 as [d|e]; simpl.
  - destruct (convert_md_to_docx eng p d ref w) as [[[]|e] w1] eqn:Hc;
      apply convert_md_to_docx_quiet in Hc; by intros [= <- <-].
  - intros [= <- <-]. apply quiet_step_refl.
Qed.

Lemma convert_each_quiet (eng : Engine) (root : Path) (od ref : option Path)
    (files acc : list Path) (w w' : World) (r : result (list Path)) :
  convert_each eng root od ref files acc w = (r, w') → quiet_step w w'.
Proof.
  revert acc w. induction files as [|p files IH]; intros acc w; simpl.
  - intros [= <- <-]. apply quiet_step_refl.
  - unfold mbind, M_bind.
    destruct (convert_one eng root od ref p w) as [[d|e] w1] eqn:Hone;
      apply convert_one_quiet in Hone.
    + intros H. apply IH in H. by eapply quiet_step_trans.
    + by intros [= <- <-].
Qed.

Lemma run_single_file_quiet (eng : Engine) (md_path : Path) (output ref : option Path)
    (w w' : World) (r : result Path) :
  run_single_file eng md_path output ref w = (r, w') → quiet_step w w'.
Proof.
  rewrite run_single_file_run.
  destruct (single_out_path md_path output w).1 as [out|e];
    [|intros [= <- <-]; apply quiet_step_refl].
  destruct (convert_md_to_docx eng md_path out ref w) as [[[]|e] w1] eqn:Hc;
    apply convert_md_to_docx_quiet in Hc; by intros [= <- <-].
Qed.

Lemma run_folder_quiet (eng : Engine) (folder : Path) (od ref : option Path)
    (rec : bool) (w w' : World) (r : result (list Path)) :
  run_folder eng folder od rec ref w = (r, w') → quiet_step w w'.
Proof.
  rewrite run_folder_run. simpl.
  destruct (Fs.is_dir _ _); [|intros [= <- <-]; apply quiet_step_refl].
  destruct (sorted _) as [|p files] eqn:E;
    [intros [= <- <-]; apply quiet_step_refl|].
  apply (convert_each_quiet eng _ od ref (p :: files) []).
Qed.

(** X6: used as a library, [run_single_file] and [run_folder] print
    nothing, and however they end they leave the working directory as it
    was, every regular file that existed still a regular file, and the
    engine's earlier calls in the log. *)
Theorem library_runs_are_quiet (eng : Engine) (w w' : World) :
  (∀ md_path output ref (r : result Path),
     run_single_file eng md_path output ref w = (r, w') → quiet_step w w') ∧
  (∀ folder od rec ref (r : result (list Path)),
     run_folder eng folder od rec ref w = (r, w') → quiet_step w w').
Proof.
  split.
  - intros md_path output ref r. apply run_single_file_quiet.
  - intros folder od rec ref r. apply run_folder_quiet.
Qed.

(** X7: however [main] ends, and the engine being taken to write nothing
    but its output file and to print nothing itself, no regular file has
    been removed, no recorded engine call dropped and the working directory
    left alone; what [main] and the functions it calls print is only
    appended, and goes to at most one of the two streams. *)
Theorem main_only_adds (eng : Engine) (args : Args) (w w' : World) (r : result Z) :
  main eng args w = (r, w') →
  cwd w' = cwd w ∧ files_kept w w' ∧ calls w `prefix_of` calls w' ∧
  stdout w `prefix_of` stdout w' ∧ stderr w `prefix_of` stderr w' ∧
  (stdout w' = stdout w ∨ stderr w' = stderr w).
Proof.
  rewrite main_run.
  assert (∃ m, mode_run eng args w = m ∧ quiet_step w m.2) as (m & -> & Hq).
  { eexists. split; [done|]. unfold mode_run, mbind, M_bind.
    destruct (mode args) as [file|folder].
    - destruct (run_single_file _ _ _ _ _) as [[out|e] w1] eqn:Hr;
        by apply run_single_file_quiet in Hr.
    - destruct (run_folder _ _ _ _ _ _) as [ro w1] eqn:Hr.
      by apply run_folder_quiet in Hr. }
  destruct m as [[outs|e] w1]; simpl in Hq; destruct Hq as (? & ? & ? & Ho & He).
  - destruct (mode args), outs; intros [= <- <-]; simpl;
      rewrite ?Ho, ?He; split_and!; auto using prefix_app_r.
  - destruct (handled (exn_kind_of e)); intros [= <- <-]; simpl;
      rewrite ?Ho, ?He; split_and!; auto using prefix_app_r.
Qed.

(** ** Runs that succeed *)

Lemma with_suffix_Ok (p d : Path) (s : string) :
  PurePath.with_suffix p s = Ok d →
  PurePath.name p ≠ "" ∧ d = PurePath.parent p ++ [PurePath.stem p +:+ s].
Proof.
  intros H. destruct (decide (PurePath.name p = "")) as [E|E].
  - destruct (with_suffix_unnamed p s E) as (e & He & _). congruence.
  - split; [done|]. rewrite with_suffix_named in H by done. congruence.
Qed.

(** X8: a batch that returns has converted every discovered file, in
    discovery order: the list returned pairs off with the discovered list,
    each destination being the derived one and a regular file afterwards;
    the engine was called once per file, in that order; and without an
    output directory each destination sits beside its input, named by the
    input's stem and [".docx"]. *)
Theorem batch_success (eng : Engine) (folder : Path) (od ref : option Path)
    (rec : bool) (w w' : World) (outs : list Path) :
  run_folder eng folder od rec ref w = (Ok outs, w') →
  let root := PurePath.resolve (cwd w) folder in
  ∃ files cs,
    (collect_md_files folder rec w).1 = Ok files ∧
    Forall2 (λ p d, (batch_docx_path root od p w).1 = Ok d ∧
                    Fs.is_file (fs w') (PurePath.resolve (cwd w) d) = true) files outs ∧
    calls w' = calls w ++ cs ∧
    map source cs = map (λ p, PurePath.str (PurePath.resolve (cwd w) p)) files ∧
    (od = None →
     outs = map (λ p, PurePath.parent p ++ [PurePath.stem p +:+ ".docx"]) files).
Proof.
  rewrite run_folder_run, collect_md_files_run. simpl.
  destruct (Fs.is_dir _ _); [|done]. simpl.
  destruct (sorted _) as [|p files] eqn:E.
  - intros [= <- <-]. exists [], []. rewrite app_nil_r. by split_and!.
  - intros H.
    apply (convert_each_Ok eng _ od ref (p :: files) []) in H
      as (_ & _ & ds & cs & Houts & Hall & Hcs & Hsrc).
    simpl in Houts. subst ds. exists (p :: files), cs. split_and!; try done.
    intros ->. clear -Hall. induction Hall as [|q d qs ds [Hq _] _ IH]; [done|].
    simpl in *. f_equal; [|done].
    unfold lift in Hq. simpl in Hq. by apply with_suffix_Ok in Hq as [_ ->].
Qed.

(** X9: a single-file run that returns found the input as a regular file,
    called the engine exactly once with the resolved input and destination,
    and returns the destination it derived, at whose resolved place a
    regular file now is. *)
Theorem single_file_success (eng : Engine) (md_path out : Path)
    (output ref : option Path) (w w' : World) :
  run_single_file eng md_path output ref w = (Ok out, w') →
  Fs.is_file (fs w) (PurePath.resolve (cwd w) md_path) = true ∧
  Fs.is_file (fs w') (PurePath.resolve (cwd w) out) = true ∧
  out = match output with
        | Some o => PurePath.resolve (cwd w) o
        | None => PurePath.parent md_path ++ [PurePath.stem md_path +:+ ".docx"]
        end ∧
  ∃ c, calls w' = calls w ++ [c] ∧
       source c = PurePath.str (PurePath.resolve (cwd w) md_path) ∧
       outputfile c = PurePath.str (PurePath.resolve (cwd w) out).
Proof.
  rewrite run_single_file_run.
  destruct (single_out_path md_path output w).1 as [d|e] eqn:Hd; [|done].
  destruct (convert_md_to_docx eng md_path d ref w) as [[[]|e] w1] eqn:Hc; [|done].
  intros [= <- <-].
  rewrite convert_md_to_docx_run in Hc. simpl in Hc.
  destruct (Fs.is_file (fs w) (PurePath.resolve (cwd w) md_path)) eqn:Hmd; [|done].
  assert (∃ rf, convert_checked eng (PurePath.resolve (cwd w) md_path)
                  (PurePath.resolve (cwd w) d) rf w = (Ok tt, w1)) as [rf Hck].
  { destruct ref as [r|]; [|eauto].
    destruct (Fs.is_file (fs w) (PurePath.resolve (cwd w) r)); [eauto|done]. }
  apply convert_checked_Ok in Hck as (_ & Hcalls & Hfile & _).
  split_and!; try done.
  - destruct output as [o|]; simpl in Hd.
    + by injection Hd as <-.
    + unfold lift in Hd. simpl in Hd. by apply with_suffix_Ok in Hd as [_ ->].
  - eexists. split; [exact Hcalls|done].
Qed.

(** ** What discovery hands to the batch *)

(** X10: over a filesystem with one node per path, discovery with a
    directory as root returns each path at most once; without recursion
    exactly the regular files directly in the root whose suffix lowers to
    [".md"], with recursion exactly the entries of any kind below the root
    whose name ends in [".md"] as written; and every path returned lies
    strictly below the resolved root. *)
Theorem discovery_result (w : World) (folder : Path) (rec : bool) (files : list Path) :
  NoDup ((fs w).*1) →
  (collect_md_files folder rec w).1 = Ok files →
  let root := PurePath.resolve (cwd w) folder in
  Fs.is_dir (fs w) root = true ∧
  NoDup files ∧
  (∀ p, p ∈ files ↔
        (p ∈ (fs w).*1 ∧
         if rec
         then Fs.is_under root p = true ∧
              PyStr.endswith (PurePath.name p) ".md" = true
         else Fs.is_child root p = true ∧ Fs.is_file (fs w) p = true ∧
              PyStr.lower (PurePath.suffix p) = ".md")) ∧
  (∀ p, p ∈ files → ∃ rest, p = root ++ rest ∧ rest ≠ []).
Proof.
  intros Hnd Hfiles root.
  pose proof (collect_md_files_elem_of w folder rec files) as Hin.
  rewrite collect_md_files_run in Hfiles. simpl in Hfiles. fold root in Hfiles.
  destruct (Fs.is_dir (fs w) root) eqn:Hdir; [|done]. simpl in Hfiles.
  injection Hfiles as <-.
  assert (sorted (md_paths (fs w) root rec) ≡ₚ md_paths (fs w) root rec) as Hperm
    by apply merge_sort_Permutation.
  split_and!.
  - done.
  - rewrite Hperm. unfold md_paths, Fs.rglob_md, Fs.iterdir.
    destruct rec; repeat apply NoDup_filter; done.
  - intros p. apply Hin. rewrite collect_md_files_run. simpl. fold root.
    by rewrite Hdir.
  - intros p Hp. rewrite Hperm in Hp. by apply md_paths_elem in Hp as [? _].
Qed.

Lemma parent_snoc (l : Path) (x : string) : l ≠ [] → PurePath.parent (l ++ [x]) = l.
Proof.
  destruct l as [|a l]; [done|]. intros _.
  transitivity (removelast ((a :: l) ++ [x])); [|apply removelast_last].
  simpl. by destruct (l ++ [x]) eqn:E; [destruct l|].
Qed.

(** X11: with an output directory, the destination of every discovered file
    is one component directly inside the resolved output directory: the
    file's path relative to the root without its suffix, separators
    replaced by underscores, followed by [".docx"]; the derivation raises
    nothing and changes nothing. *)
Theorem discovered_destination_is_flat (w : World) (folder od p : Path) (rec : bool)
    (files : list Path) :
  PurePath.is_absolute (cwd w) = true →
  (collect_md_files folder rec w).1 = Ok files → p ∈ files →
  let root := PurePath.resolve (cwd w) folder in
  ∃ rest flat dest,
    p = root ++ rest ∧
    flat = PyStr.replace PyStr.sep "_"
             (PurePath.str (PurePath.parent rest ++ [PurePath.stem rest])) ∧
    PyStr.contains PyStr.sep flat = false ∧
    batch_docx_path root (Some od) p w = (Ok dest, w) ∧
    dest = PurePath.resolve (cwd w) od ++ [flat +:+ ".docx"] ∧
    PurePath.parent dest = PurePath.resolve (cwd w) od.
Proof.
  intros Hcwd Hfiles Hp root.
  rewrite collect_md_files_run in Hfiles. simpl in Hfiles. fold root in Hfiles.
  destruct (Fs.is_dir (fs w) root); [|done]. simpl in Hfiles. injection Hfiles as <-.
  unfold sorted in Hp. rewrite merge_sort_Permutation in Hp.
  apply md_paths_elem in Hp as ((rest & -> & Hrest) & Hn & Hn').
  assert (PurePath.is_absolute root = true) as Hroot by by apply resolve_absolute.
  destruct (batch_docx_path_under_root root rest od w Hroot Hrest Hn Hn')
    as [Hd Hflat].
  exists rest. do 2 eexists. split_and!; try done.
  apply parent_snoc.
  pose proof (resolve_absolute (cwd w) od Hcwd) as Habs.
  by destruct (PurePath.resolve (cwd w) od).
Qed.

(** X12: when the files before [f] have been converted and [f], though
    discovered, is not a regular file (a directory named like one, met by
    the recursive search), the batch raises [FileNotFoundError] naming [f]
    without calling the engine for it, and the world stays as the earlier
    conversions left it. *)
Theorem non_file_entry_aborts_batch (eng : Engine) (folder : Path)
    (od ref : option Path) (rec : bool) (pre post : list Path) (f : Path)
    (w : World) (outs : list Path) (w1 : World) :
  let root := PurePath.resolve (cwd w) folder in
  PurePath.is_absolute (cwd w) = true →
  (collect_md_files folder rec w).1 = Ok (pre ++ f :: post) →
  convert_each eng root od ref pre [] w = (Ok outs, w1) →
  Fs.is_file (fs w1) (PurePath.resolve (cwd w) f) = false →
  run_folder eng folder od rec ref w
  = (Raise (Exn FileNotFoundError
       ("Markdown file not found: " +:+ PurePath.str (PurePath.resolve (cwd w) f))
       None), w1).
Proof.
  intros root Hcwd Hfiles Hpre Hf.
  pose proof (convert_each_Ok _ _ _ _ _ _ _ _ _ Hpre) as (Hcwd1 & _).
  assert (PurePath.is_absolute root = true) as Hroot by by apply resolve_absolute.
  rewrite run_folder_run. cbv zeta. fold root.
  rewrite collect_md_files_run in Hfiles. simpl in Hfiles. fold root in Hfiles.
  destruct (Fs.is_dir (fs w) root); [|done]. simpl in Hfiles.
  injection Hfiles as Hfiles. rewrite Hfiles.
  assert (f ∈ md_paths (fs w) root rec) as Hin.
  { rewrite <- (merge_sort_Permutation PurePath.le). fold (sorted (md_paths (fs w) root rec)).
    rewrite Hfiles. apply elem_of_app. right. left. }
  apply md_paths_elem in Hin as (Hunder & Hn & Hn').
  destruct (batch_docx_path_defined root f od w1 Hroot Hunder Hn Hn') as [d Hd].
  destruct (pre ++ f :: post) as [|x l] eqn:E; [by destruct pre|]. rewrite <- E.
  rewrite convert_each_app, Hpre. simpl.
  unfold convert_one, mbind, M_bind. rewrite Hd.
  rewrite convert_missing_source by (by rewrite Hcwd1). by rewrite Hcwd1.
Qed.

(** ** Flat names can collide *)

Lemma rfind_app (c : ascii) (s t : string) (i : nat) :
  PyStr.rfind c t = Some i → PyStr.rfind c (s +:+ t) = Some (String.length s + i).
Proof.
  intros Ht. induction s as [|a s IH]; [done|].
  rewrite string_app_cons. simpl. by rewrite IH.
Qed.

Lemma substring_app_skip (s t : string) (n m : nat) :
  String.substring (String.length s + n) m (s +:+ t) = String.substring n m t.
Proof. induction s as [|a s IH]; [done|]. rewrite string_app_cons. simpl. apply IH. Qed.

Lemma substring_app_take (s t : string) (n : nat) :
  String.substring 0 (String.length s + n) (s +:+ t) = s +:+ String.substring 0 n t.
Proof.
  induction s as [|a s IH]; [done|]. rewrite !string_app_cons. simpl. by rewrite IH.
Qed.

(** A name with a suffix keeps it, and its stem grows, when text is put in
    front. *)
Lemma name_suffix_app (s t : string) :
  PurePath.name_suffix t ≠ "" →
  PurePath.name_suffix (s +:+ t) = PurePath.name_suffix t ∧
  PurePath.name_stem (s +:+ t) = s +:+ PurePath.name_stem t.
Proof.
  intros Ht.
  assert (∃ i, PyStr.rfind "." t = Some i ∧ 0 < i ∧ i < String.length t - 1 ∧
               PurePath.name_suffix t = String.substring i (String.length t - i) t)
    as (i & Hi & H0 & H1 & Hsuf).
  { unfold PurePath.name_suffix in *. destruct (PyStr.rfind "." t) as [i|]; [|done].
    exists i. destruct (0 <? i) eqn:E0; [|done]. destruct (i <? _) eqn:E1; [|done].
    apply Nat.ltb_lt in E0, E1. done. }
  assert (PurePath.name_suffix (s +:+ t) = PurePath.name_suffix t) as Heq.
  { rewrite Hsuf. unfold PurePath.name_suffix.
    rewrite (rfind_app _ s t i Hi), string_length_app.
    assert ((0 <? String.length s + i) = true) as -> by (apply Nat.ltb_lt; lia).
    assert ((String.length s + i <? String.length s + String.length t - 1) = true) as ->
      by (apply Nat.ltb_lt; lia).
    simpl. replace (String.length s + String.length t - (String.length s + i))
      with (String.length t - i) by lia.
    apply substring_app_skip. }
  split; [done|]. unfold PurePath.name_stem. rewrite Heq, string_length_app.
  assert (String.length (PurePath.name_suffix t) ≤ String.length t) as Hle.
  { rewrite Hsuf, length_substring; lia. }
  replace (String.length s + String.length t - String.length (PurePath.name_suffix t))
    with (String.length s + (String.length t - String.length (PurePath.name_suffix t)))
    by lia.
  apply substring_app_take.
Qed.

Lemma replace_app (o n : ascii) (s t : string) :
  PyStr.replace o n (s +:+ t) = PyStr.replace o n s +:+ PyStr.replace o n t.
Proof.
  induction s as [|a s IH]; [done|]. rewrite string_app_cons. simpl.
  by rewrite IH, string_app_cons.
Qed.

Lemma underscored_not_plain (x z : string) :
  x +:+ "_" +:+ z ≠ "" ∧ x +:+ "_" +:+ z ≠ PurePath.root.
Proof.
  assert (PyStr.contains "_" (x +:+ "_" +:+ z) = true) as H.
  { rewrite contains_app. apply orb_true_iff. by right. }
  split; intros E; by rewrite E in H.
Qed.

(** X13: the flat names are not injective.  Below the same root, the file
    [y] in the directory [x] and the file named [x], underscore, [y] directly
    in the root are two inputs with one and the same destination; nothing in
    the derivation tells them apart or raises. *)
Theorem flat_names_collide (root od : Path) (x y : string) (w : World) :
  PurePath.is_absolute root = true →
  x ≠ PurePath.root →
  PurePath.name_suffix y ≠ "" →
  let nested := root ++ [x; y] in
  let joined := root ++ [x +:+ "_" +:+ y] in
  nested ≠ joined ∧
  ∃ dest, batch_docx_path root (Some od) nested w = (Ok dest, w) ∧
          batch_docx_path root (Some od) joined w = (Ok dest, w).
Proof.
  intros Hroot Hx Hy nested joined.
  assert (root ≠ []) as Hne by by destruct root.
  assert (y ≠ "" ∧ y ≠ PurePath.root) as [Hy1 Hy2].
  { split; intros ->; by apply Hy. }
  destruct (underscored_not_plain x y) as [Hj1 Hj2].
  split.
  { unfold nested, joined. intros E. by apply app_inv_head in E. }
  destruct (batch_docx_path_under_root root [x; y] od w) as [H1 _]; try done.
  { change (root ++ [x; y]) with (root ++ [x] ++ [y]).
    rewrite app_assoc, name_snoc_nonempty; [done|by destruct root]. }
  { change (root ++ [x; y]) with (root ++ [x] ++ [y]).
    rewrite app_assoc, name_snoc_nonempty; [done|by destruct root]. }
  destruct (batch_docx_path_under_root root [x +:+ "_" +:+ y] od w) as [H2 _];
    try done; try (by rewrite name_snoc_nonempty).
  eexists. split; [exact H1|]. fold joined in H2. rewrite H2. do 3 f_equal.
  destruct (name_suffix_app "_" y Hy) as [Hs1 Hst1].
  destruct (name_suffix_app x ("_" +:+ y)) as [_ Hst2]; [by rewrite Hs1|].
  assert (PurePath.stem [x +:+ "_" +:+ y] = x +:+ "_" +:+ PurePath.name_stem y) as ->.
  { unfold PurePath.stem. simpl.
    rewrite (proj2 (String.eqb_neq _ _) Hj2). by rewrite Hst2, Hst1. }
  assert (PurePath.parent [x +:+ "_" +:+ y] = []) as ->.
  { simpl. by rewrite (proj2 (String.eqb_neq _ _) Hj2). }
  change (PurePath.parent [x; y]) with [x].
  change (PurePath.stem [x; y]) with (PurePath.name_stem y).
  destruct (underscored_not_plain x (PurePath.name_stem y)) as [_ Hk].
  simpl. rewrite (proj2 (String.eqb_neq _ _) Hx), (proj2 (String.eqb_neq _ _) Hk).
  unfold PyStr.join. simpl. by rewrite !replace_app.
Qed.

(** ** Worked instances of the further properties *)

Lemma invalid_root_is_reported_witness :
  main Demo.engine_ok (Demo.folder_args "/docs/a.md") Demo.w0
  = (Ok 1%Z, add_stderr ["Error: Not a directory: /docs/a.md"] Demo.w0).
Proof.
  destruct (invalid_root_is_reported Demo.engine_ok (Demo.folder_args "/docs/a.md")
              (Demo.P "/docs/a.md") Demo.w0 eq_refl) as (_ & _ & H).
  - vm_compute. reflexivity.
  - exact H.
Defined.

Definition file_args (file : string) : Args :=
  {| mode := FileMode (Demo.P file); output := None; output_dir := None;
     recursive := false; reference_doc := None |}.

Definition not_implemented : exn :=
  Exn (OtherError "NotImplementedError" RuntimeError) "boom" None.

Lemma main_reports_or_propagates_witness :
  main (Demo.engine_failing_on "/docs/a.md" not_implemented) (file_args "/docs/a.md")
    Demo.w0
  = (Ok 1%Z, add_stderr ["Error: boom"]
               (with_call (engine_call (Demo.P "/docs/a.md") (Demo.P "/docs/a.docx") None)
                  Demo.w0)) ∧
  (main (Demo.engine_failing_on "/docs/a.md" pandoc_not_found) (file_args "/docs/a.md")
     Demo.w0).1 = Raise pandoc_not_found.
Proof.
  split.
  - edestruct (main_reports_or_propagates
                 (Demo.engine_failing_on "/docs/a.md" not_implemented)
                 (file_args "/docs/a.md") Demo.w0) as [H _].
    + vm_compute. reflexivity.
    + rewrite H. reflexivity.
  - edestruct (main_reports_or_propagates
                 (Demo.engine_failing_on "/docs/a.md" pandoc_not_found)
                 (file_args "/docs/a.md") Demo.w0) as [H _].
    + vm_compute. reflexivity.
    + rewrite H. reflexivity.
Defined.

Lemma conversion_success_witness :
  ∃ w', convert_md_to_docx Demo.engine_ok (Demo.P "/docs/a.md") (Demo.P "/out/a.docx")
          (Some (Demo.P "/docs/ref.docx")) Demo.w0 = (Ok tt, w') ∧
        Fs.is_file (fs w') (Demo.P "/out/a.docx") = true ∧
        map extra_args (calls w')
        = [["--resource-path=/docs"; "--reference-doc"; "/docs/ref.docx"]].
Proof.
  eexists. split; [vm_compute; reflexivity|].
  edestruct (conversion_success Demo.engine_ok (Demo.P "/docs/a.md")
               (Demo.P "/out/a.docx") (Some (Demo.P "/docs/ref.docx")) Demo.w0)
    as (_ & _ & _ & Hfile & _ & Hcalls).
  - vm_compute. reflexivity.
  - split; [exact Hfile|]. rewrite Hcalls. reflexivity.
Defined.

Lemma blocked_destination_directory_witness :
  (∃ e, convert_md_to_docx Demo.engine_ok (Demo.P "/docs/a.md")
          (Demo.P "/docs/ref.docx/a.docx") None Demo.w0 = (Raise e, Demo.w0) ∧
        exn_kind_of e = FileExistsError) ∧
  (∃ e, convert_md_to_docx Demo.engine_ok (Demo.P "/docs/a.md")
          (Demo.P "/docs/ref.docx/sub/a.docx") None Demo.w0 = (Raise e, Demo.w0) ∧
        exn_kind_of e = NotADirectoryError).
Proof.
  split.
  - destruct (blocked_destination_directory Demo.engine_ok (Demo.P "/docs/a.md")
                (Demo.P "/docs/ref.docx/a.docx") None Demo.w0) as [H _].
    + vm_compute. reflexivity.
    + discriminate.
    + destruct H as (e & He & Hk & _); [vm_compute; reflexivity|]. eauto.
  - destruct (blocked_destination_directory Demo.engine_ok (Demo.P "/docs/a.md")
                (Demo.P "/docs/ref.docx/sub/a.docx") None Demo.w0) as [_ H].
    + vm_compute. reflexivity.
    + discriminate.
    + destruct H as (e & He & Hk & _); [vm_compute; reflexivity..|]. eauto.
Defined.

Lemma library_runs_are_quiet_witness :
  quiet_step Demo.w0
    (run_folder Demo.engine_ok (Demo.P "/docs") (Some (Demo.P "/out")) false None
       Demo.w0).2.
Proof.
  eapply (proj2 (library_runs_are_quiet Demo.engine_ok Demo.w0 _)).
  apply surjective_pairing.
Defined.

Lemma main_only_adds_witness :
  ∃ w', (main Demo.engine_ok (Demo.folder_args "/docs") Demo.w0).2 = w' ∧
        files_kept Demo.w0 w' ∧ stderr w' = stderr Demo.w0.
Proof.
  eexists. split; [reflexivity|].
  edestruct (main_only_adds Demo.engine_ok (Demo.folder_args "/docs") Demo.w0)
    as (_ & Hkept & _); [apply surjective_pairing|].
  split; [exact Hkept|]. vm_compute. reflexivity.
Defined.

Lemma batch_success_witness :
  ∃ files cs w',
    run_folder Demo.engine_ok (Demo.P "/docs") None false None Demo.w0
      = (Ok [Demo.P "/docs/README.docx"; Demo.P "/docs/a.docx"], w') ∧
    (collect_md_files (Demo.P "/docs") false Demo.w0).1 = Ok files ∧
    calls w' = calls Demo.w0 ++ cs ∧
    map source cs = map PurePath.str files.
Proof.
  edestruct (batch_success Demo.engine_ok (Demo.P "/docs") None None false Demo.w0)
    as (files & cs & Hfiles & _ & Hcalls & Hsrc & _).
  - vm_compute. reflexivity.
  - exists files, cs. eexists. split; [reflexivity|]. split; [exact Hfiles|].
    split; [exact Hcalls|]. rewrite Hsrc.
    vm_compute in Hfiles. injection Hfiles as <-. reflexivity.
Defined.

Lemma single_file_success_witness :
  ∃ w', run_single_file Demo.engine_ok (Demo.P "../../docs/a.md") None None Demo.w0
        = (Ok (Demo.P "../../docs/a.docx"), w') ∧
        Fs.is_file (fs w') (Demo.P "/docs/a.docx") = true.
Proof.
  eexists. split; [vm_compute; reflexivity|].
  edestruct (single_file_success Demo.engine_ok (Demo.P "../../docs/a.md")
               (Demo.P "../../docs/a.docx") None None Demo.w0) as (_ & H & _).
  - vm_compute. reflexivity.
  - exact H.
Defined.

Lemma discovery_result_witness :
  NoDup [Demo.P "/docs/README.MD"; Demo.P "/docs/a.md"] ∧
  (Demo.P "/docs/sub1/note.md" ∉ [Demo.P "/docs/README.MD"; Demo.P "/docs/a.md"]).
Proof.
  destruct (discovery_result Demo.w0 (Demo.P "/docs") false
              [Demo.P "/docs/README.MD"; Demo.P "/docs/a.md"]) as (_ & Hnd & Hin & _).
  - apply (bool_decide_unpack _). vm_compute. exact I.
  - vm_compute. reflexivity.
  - split; [exact Hnd|]. intros H. apply Hin in H as (_ & Hchild & _).
    vm_compute in Hchild. discriminate Hchild.
Defined.

Lemma discovered_destination_is_flat_witness :
  batch_docx_path (Demo.P "/docs") (Some (Demo.P "/out")) (Demo.P "/docs/sub1/note.md")
    Demo.w0 = (Ok (Demo.P "/out/sub1_note.docx"), Demo.w0).
Proof.
  destruct (discovered_destination_is_flat Demo.w0 (Demo.P "/docs") (Demo.P "/out")
              (Demo.P "/docs/sub1/note.md") true
              [Demo.P "/docs/a.md"; Demo.P "/docs/archive.md";
               Demo.P "/docs/sub1/note.md"; Demo.P "/docs/sub2/note.md"])
    as (rest & flat & dest & Hp & -> & _ & Hd & -> & _).
  - reflexivity.
  - vm_compute. reflexivity.
  - apply (bool_decide_unpack _). vm_compute. exact I.
  - vm_compute in Hp. injection Hp as <-. exact Hd.
Defined.

Lemma non_file_entry_aborts_batch_witness :
  ∃ w1, run_folder Demo.engine_ok (Demo.P "/docs") None true None Demo.w0
        = (Raise (Exn FileNotFoundError "Markdown file not found: /docs/archive.md" None),
           w1) ∧
        map source (calls w1) = ["/docs/a.md"].
Proof.
  eexists. split.
  - eapply (non_file_entry_aborts_batch Demo.engine_ok (Demo.P "/docs") None None true
              [Demo.P "/docs/a.md"]
              [Demo.P "/docs/sub1/note.md"; Demo.P "/docs/sub2/note.md"]
              (Demo.P "/docs/archive.md") Demo.w0).
    + reflexivity.
    + vm_compute. reflexivity.
    + vm_compute. reflexivity.
    + vm_compute. reflexivity.
  - vm_compute. reflexivity.
Defined.

Lemma flat_names_collide_witness :
  ∃ dest,
    batch_docx_path (Demo.P "/docs") (Some (Demo.P "/out")) (Demo.P "/docs/sub1/note.md")
      Demo.w0 = (Ok dest, Demo.w0) ∧
    batch_docx_path (Demo.P "/docs") (Some (Demo.P "/out")) (Demo.P "/docs/sub1_note.md")
      Demo.w0 = (Ok dest, Demo.w0).
Proof.
  destruct (flat_names_collide (Demo.P "/docs") (Demo.P "/out") "sub1" "note.md" Demo.w0)
    as (_ & dest & H1 & H2).
  - reflexivity.
  - discriminate.
  - discriminate.
  - exists dest. split; [exact H1|exact H2].
Defined.
